(** * Scoring engine of the Backtest indicator scripts

    A shallow embedding of the scoring classes of
    [CPIUCSL.py], [IR%.py], [PermitsSA.py], [UMCSI.py], [ISM.py], [NMI.py]
    and [M2.py], followed by the properties proved about them.

    Numbers.  Python [float] readings are modelled by exact rationals [Q]:
    every finite float is a rational, and arithmetic is taken without
    rounding error (the spec speaks of "real numbers").  Properties are
    stated so that they do not hang on a rounding of the last bit: ranges,
    labels, and results at a distance from the points where a result
    changes.  Where the rounding of doubles decides a result, module [F64]
    gives the rounded operations; readings that are NaN or infinite are in
    module [Ext].  Python [int] is [Z].  Equality of rationals is [Qeq]
    ([==]), since [Q] does not normalise fractions.

    Effects.  The classes mutate [self]; a method is embedded as a function
    from the object to the returned value and the updated object.  The
    [print] calls are diagnostics and are left out.  Spreadsheet loading
    (pandas) is outside the embedding, only the per-row calls are kept. *)

From Stdlib Require Import ZArith QArith Qround Qabs Qminmax Lqa Lia.
From Stdlib Require Import String Ascii List.
From stdpp Require Import base option list gmap.

Import ListNotations.

(** ** Python builtins used by the scripts *)

Module Py.

Local Open Scope Q_scope.

(** Comparisons of floats as booleans. *)
Definition leb (x y : Q) : bool := Qle_bool x y.
Definition ltb (x y : Q) : bool := negb (Qle_bool y x).

(** [min(a, b)] and [max(a, b)]: the first argument is kept unless the
    second is strictly smaller (resp. larger). *)
Definition min (a b : Q) : Q := if ltb b a then b else a.
Definition max (a b : Q) : Q := if ltb a b then b else a.

(** [round(x)] with no digits argument: nearest integer, ties to even. *)
Definition round (x : Q) : Z :=
  let f := Qfloor x in
  match Qcompare (x - inject_Z f) (1 # 2) with
  | Lt => f
  | Gt => (f + 1)%Z
  | Eq => if Z.even f then f else (f + 1)%Z
  end.

(** [round(x, n)] for [scale = 10^n]: nearest multiple of [1/scale], ties
    to even, of the exact [x].  The code rounds the double that holds [x]:
    when [x] is within a rounding error of the middle of two multiples,
    the double may lie on the other side of the middle and the code's
    result is the neighbouring multiple. *)
Definition round_to (scale : Z) (x : Q) : Q :=
  inject_Z (round (x * inject_Z scale)) / inject_Z scale.

Definition round1 : Q -> Q := round_to 10.
Definition round2 : Q -> Q := round_to 100.

(** [min(xs, key=f)]: the first element whose key is smallest;
    [ValueError] (here [None]) on an empty sequence. *)
Fixpoint min_from {A : Type} (key : A -> Q) (best : A) (xs : list A) : A :=
  match xs with
  | [] => best
  | x :: xs' => min_from key (if ltb (key x) (key best) then x else best) xs'
  end.

Definition min_by {A : Type} (key : A -> Q) (xs : list A) : option A :=
  match xs with
  | [] => None
  | x :: xs' => Some (min_from key x xs')
  end.

(** [sum(xs)]: left to right, starting from [0]. *)
Definition sum (xs : list Q) : Q := fold_left Qplus xs 0.

(** [xs[start:]] for any integer [start]; a negative [start] counts from
    the end and is clipped at the beginning of the list.  ([xs[-1]] is
    stdpp's [last xs], which is [None] on the empty list.) *)
Definition slice_from {A : Type} (start : Z) (xs : list A) : list A :=
  let n := Z.of_nat (length xs) in
  let s := if (start <? 0)%Z then Z.max 0 (n + start) else Z.min start n in
  drop (Z.to_nat s) xs.

(** Dates: the calendar fields of a [datetime]. *)
Record datetime := Datetime { year : Z; month : Z; day : Z }.

Definition digit (d : Z) : string :=
  String (ascii_of_nat (48 + Z.to_nat (d mod 10))) EmptyString.

Definition pad2 (n : Z) : string := digit (n / 10) ++ digit n.
Definition pad4 (n : Z) : string :=
  digit (n / 1000) ++ digit (n / 100) ++ digit (n / 10) ++ digit n.

(** [d.strftime('%Y-%m-%d')] *)
Definition strftime_Ymd (d : datetime) : string :=
  pad4 (year d) ++ "-" ++ pad2 (month d) ++ "-" ++ pad2 (day d).

End Py.

(** ** CPIUCSL.py *)

Module CPIUCSL.

Local Open Scope Q_scope.

Record CPIDataPoint := mkPoint {
  date : Py.datetime;
  cpi_change : Q;
  score : option Z
}.

(** [CPIDataPoint.__init__] *)
Definition init (date : Py.datetime) (cpi_change : Q) : CPIDataPoint :=
  mkPoint date cpi_change None.

(** The literal list of [(threshold, score)] pairs, in source order. *)
Definition score_table : list (Q * Z) :=
  [ (1.4%Q, 3); (1.2%Q, 6); (1.0%Q, 10); (0.8%Q, 8); (0.6%Q, 6);
    (0.4%Q, 4); (0.3%Q, 0); (0.0%Q, 0); ((-0.1)%Q, -6); ((-0.2)%Q, -8);
    ((-0.3)%Q, -10); ((-0.4)%Q, 6); ((-0.5)%Q, 8); ((-0.6)%Q, 10);
    ((-0.7)%Q, 10) ]%Z.

(** The step after the zero guard: [min(score_table, key=...)] and
    [closest[1]], with exact thresholds and distances.  In the code the
    thresholds and [abs(x[0] - cpi_12ma)] are doubles, so an average at
    (or within a rounding error of) equal distance from two thresholds, or
    one of huge magnitude, may resolve to another entry there. *)
Definition closest_score (table : list (Q * Z)) (cpi_12ma : Q) : option Z :=
  snd <$> Py.min_by (fun x => Qabs (fst x - cpi_12ma)) table.

(** [CPIDataPoint.calculate_score], with the table as a parameter.  The
    result is [None] where Python raises ([min] of an empty table);
    otherwise the returned score and the updated point. *)
Definition calculate_score_with (table : list (Q * Z))
    (self : CPIDataPoint) (cpi_12ma : Q) : option (Z * CPIDataPoint) :=
  if Py.ltb (Qabs cpi_12ma) 0.01 then
    Some (0%Z, mkPoint (date self) (cpi_change self) (Some 0%Z))
  else
    s ← closest_score table cpi_12ma;
    Some (s, mkPoint (date self) (cpi_change self) (Some s)).

Definition calculate_score := calculate_score_with score_table.

Record CPIDict := mkDict {
  d_date : string;
  d_cpi_change : Q;
  d_score : option Z
}.

(** [CPIDataPoint.to_dict] *)
Definition to_dict (self : CPIDataPoint) : CPIDict :=
  mkDict (Py.strftime_Ymd (date self)) (cpi_change self) (score self).

(** The body of the loop of [load_cpi_data] for a row whose 12-month
    average is present: build the point, score it, export it. *)
Definition process_row (date : Py.datetime) (cpi_change ma12 : Q)
    : option CPIDict :=
  r ← calculate_score (init date cpi_change) ma12;
  Some (to_dict (snd r)).

End CPIUCSL.

(** ** IR%.py *)

Module IR.

Local Open Scope Q_scope.

(** The literal dict, as its [(key, value)] pairs in insertion order, which
    is the order in which [score_table.keys()] is iterated. *)
Definition score_table : list (Z * Z) :=
  [ (60, -10); (50, -10); (40, -10); (30, -10);
    (20, -10); (15, -9); (10, -6); (5, -3);
    (0, 0); (-5, 0); (-10, 3); (-15, 5);
    (-20, 7); (-30, -8); (-40, -9); (-50, -10); (-60, -10) ]%Z.

(** [d[k]]: [None] stands for [KeyError]. *)
Definition getitem (d : list (Z * Z)) (k : Z) : option Z :=
  snd <$> List.find (fun kv => Z.eqb (fst kv) k) d.

(** [InterestRateDataPoint._calculate_score], with exact distances.  In
    the code [abs(x - self.rate_value)] is a double, which orders the keys
    as the exact distance does as long as the reading is of moderate
    magnitude; see [F64.dict_score] for the rounded distances. *)
Definition _calculate_score_with (table : list (Z * Z)) (rate_value : Q)
    : option Z :=
  closest ← Py.min_by (fun x => Qabs (inject_Z x - rate_value)) (map fst table);
  getitem table closest.

Definition _calculate_score := _calculate_score_with score_table.

Record InterestRateDataPoint := mkPoint {
  date : Py.datetime;
  rate_value : Q;
  score : Z
}.

(** [InterestRateDataPoint.__init__]; [None] where the constructor raises. *)
Definition init (date : Py.datetime) (rate_value : Q)
    : option InterestRateDataPoint :=
  s ← _calculate_score rate_value;
  Some (mkPoint date rate_value s).

End IR.

(** ** PermitsSA.py *)

Module PermitsSA.

Local Open Scope Q_scope.

Definition score_table : list (Z * Z) :=
  [ (400, 10); (500, 10); (600, 10); (700, 7); (800, -8);
    (900, -5); (1000, -3); (1100, 0); (1200, 2); (1300, 3);
    (1400, 4); (1500, 5); (1600, 8); (1700, 9); (1800, 10);
    (1900, -7); (2000, -9); (2100, -10); (2200, -10); (2300, -10);
    (2400, -10) ]%Z.

(** [PermitDataPoint._calculate_score], with exact distances, as in
    [IR]; see [F64.dict_score] for the rounded distances. *)
Definition _calculate_score_with (table : list (Z * Z)) (value : Q)
    : option Z :=
  closest ← Py.min_by (fun x => Qabs (inject_Z x - value)) (map fst table);
  IR.getitem table closest.

Definition _calculate_score := _calculate_score_with score_table.

Record PermitDataPoint := mkPoint {
  date : Py.datetime;
  value : Q;
  score : Z
}.

(** [PermitDataPoint.__init__]; [None] where the constructor raises. *)
Definition init (date : Py.datetime) (value : Q) : option PermitDataPoint :=
  s ← _calculate_score value;
  Some (mkPoint date value s).

End PermitsSA.

(** ** UMCSI.py *)

Module UMCSI.

Local Open Scope Q_scope.

Record UMCSIDataPoint := mkPoint {
  date : Py.datetime;
  value : Q;
  change : option Q;
  score : option Z
}.

(** [UMCSIDataPoint.__init__] *)
Definition init (date : Py.datetime) (value : Q) (change : option Q)
    : UMCSIDataPoint :=
  mkPoint date value change None.

(** The literal dict of the scoring method. *)
Definition score_map : gmap Z Z :=
  list_to_map
  [ (55, 10); (56, 10); (57, 9); (58, 9); (59, 8); (60, 7); (61, 6); (62, 5);
    (63, -10); (64, -9); (65, -8); (66, -7); (67, -6); (68, -5); (69, -4);
    (70, -3); (71, -2); (72, -1); (73, -1); (74, 0); (75, 0); (76, 1); (77, 1);
    (78, 2); (79, 2); (80, 3); (81, 3); (82, 4); (83, 4); (84, 5); (85, 5);
    (86, 6); (87, 6); (88, 7); (89, 7); (90, 8); (91, 8); (92, 9); (93, 9);
    (94, 10); (95, 10); (96, -5); (97, -5); (98, -6); (99, -6); (100, -7);
    (101, -8); (102, -9); (103, -9); (104, -10); (105, -10) ]%Z.

(** [max(55, min(105, rounded_value))] *)
Definition clamp (rounded_value : Z) : Z := Z.max 55 (Z.min 105 rounded_value).

(** The score computed from the reading: round, clamp, [score_map.get(k, 0)]. *)
Definition score_of (value : Q) : Z :=
  let rounded_value := Py.round value in
  let clamped_value := clamp rounded_value in
  default 0%Z (score_map !! clamped_value).

(** [UMCSIDataPoint.calculate_score]: the returned score and the updated
    point.  [value] is a float here, so the [value is None] guard of the
    source does not fire. *)
Definition calculate_score (self : UMCSIDataPoint) : Z * UMCSIDataPoint :=
  let s := score_of (value self) in
  (s, mkPoint (date self) (value self) (change self) (Some s)).

Record UMCSIDict := mkDict {
  d_date : string;
  d_value : Q;
  d_change : option Q;
  d_score : option Z
}.

(** [UMCSIDataPoint.to_dict] *)
Definition to_dict (self : UMCSIDataPoint) : UMCSIDict :=
  mkDict (Py.strftime_Ymd (date self)) (value self) (change self) (score self).

Record UMCSIData := mkData { data_points : list UMCSIDataPoint }.

(** [UMCSIData.__init__] *)
Definition empty : UMCSIData := mkData [].

(** [UMCSIData.add_data_point].  [len(self.data_points) > 0] holds exactly
    when [self.data_points[-1]] exists. *)
Definition add_data_point (self : UMCSIData) (date : Py.datetime) (value : Q)
    (change : option Q) : UMCSIData :=
  let change :=
    match change, last (data_points self) with
    | None, Some prev => Some (value - UMCSI.value prev)
    | _, _ => change
    end in
  let new_point := init date value change in
  let new_point := snd (calculate_score new_point) in
  mkData (data_points self ++ [new_point]).

Definition get_all_data (self : UMCSIData) : list UMCSIDict :=
  to_dict <$> data_points self.

Definition get_last_n_months (self : UMCSIData) (n : Z) : list UMCSIDict :=
  to_dict <$> Py.slice_from (- n) (data_points self).

Definition get_current_score (self : UMCSIData) : option UMCSIDict :=
  to_dict <$> last (data_points self).

End UMCSI.

(** ** ISM.py and NMI.py: the shared shape

    [ISMDataPoint]/[NMIDataPoint] and [ISMData]/[NMIData] have the same
    fields and the same methods, apart from [calculate_score]; one record
    serves both, and the accumulator takes the scorer as an argument. *)

Module Diffusion.

Local Open Scope Q_scope.

(** The dict stored in [self.score_info]. *)
Record ScoreInfo := mkInfo {
  score : Q;
  bias : string;
  phase : string;
  scenario : string
}.

Record DataPoint := mkPoint {
  date : Py.datetime;
  value : Q;
  change : option Q;
  score_info : option ScoreInfo
}.

(** [__init__] *)
Definition init (date : Py.datetime) (value : Q) (change : option Q)
    : DataPoint :=
  mkPoint date value change None.

(** [self.score_info = info] *)
Definition set_score_info (self : DataPoint) (info : ScoreInfo) : DataPoint :=
  mkPoint (date self) (value self) (change self) (Some info).

(** The dict built at the end of each scoring path, from the local
    variables [score], [bias], [phase], [scenario]. *)
Definition pack (score : Q) (bias phase scenario : string) : ScoreInfo :=
  mkInfo (Py.round1 score) (bias ++ " Bias") phase scenario.

(** The standard scenarios 1 to 4, identical in both files. *)
Definition standard (current change : Q) : ScoreInfo :=
  if Py.ltb 50 current then
    if Py.ltb 0 change then
      pack (5 + Py.min 3 (change / 2)) "Short" "Initiation"
           "Above 50 and growing"
    else
      pack (Py.max 0 (5 + change)) "Short" "Initiation"
           "Above 50 and slowing"
  else
    if Py.ltb change 0 then
      pack (-5 - Py.min 3 (Qabs change / 2)) "Long" "Definition"
           "Below 50 and slowing"
    else
      pack (Py.min 0 (-5 + change)) "Long" "Definition"
           "Below 50 and growing".

Record Dict := mkDict {
  d_date : string;
  d_value : Q;
  d_change : option Q;
  d_score : option Q;
  d_bias : option string;
  d_phase : option string;
  d_scenario : option string
}.

(** [to_dict]; a [score_info] dict, when present, has four keys and is
    truthy. *)
Definition to_dict (self : DataPoint) : Dict :=
  mkDict (Py.strftime_Ymd (date self)) (value self) (change self)
         (score <$> score_info self) (bias <$> score_info self)
         (phase <$> score_info self) (scenario <$> score_info self).

Record Data := mkData { data_points : list DataPoint }.

(** [ISMData.__init__], [NMIData.__init__] *)
Definition empty : Data := mkData [].

Section Accumulator.

(** [calculate_score(previous)] of the file at hand: the returned value and
    the updated point. *)
Variable calculate_score :
  DataPoint -> option Q -> option ScoreInfo * DataPoint.

(** [add_data_point].  [len(self.data_points) > 0] holds exactly when
    [self.data_points[-1]] exists. *)
Definition add_data_point (self : Data) (date : Py.datetime) (value : Q)
    (change : option Q) : Data :=
  let change :=
    match change, last (data_points self) with
    | None, Some prev => Some (value - Diffusion.value prev)
    | _, _ => change
    end in
  let new_point := init date value change in
  let previous := Diffusion.value <$> last (data_points self) in
  let new_point := snd (calculate_score new_point previous) in
  mkData (data_points self ++ [new_point]).

(** The loop of [load_from_excel] over the rows of the sheet, each a date,
    a reading and the cell of the [change] column if the sheet has one:
    one [add_data_point] per row, in order. *)
Definition feed (self : Data) (rows : list (Py.datetime * Q * option Q))
    : Data :=
  fold_left (fun acc row => add_data_point acc (fst (fst row)) (snd (fst row))
                                           (snd row))
            rows self.

End Accumulator.

Definition get_all_data (self : Data) : list Dict :=
  to_dict <$> data_points self.

Definition get_last_n_months (self : Data) (n : Z) : list Dict :=
  to_dict <$> Py.slice_from (- n) (data_points self).

Definition get_current_score (self : Data) : option Dict :=
  to_dict <$> last (data_points self).

End Diffusion.

(** ** ISM.py *)

Module ISM.

Import Diffusion.
Local Open Scope Q_scope.

(** Scenarios 5 and 6 of [ISMDataPoint.calculate_score], tried first when a
    previous reading is given; [None] when neither transition applies. *)
Definition transition (previous_ism : option Q) (current_ism ism_change : Q)
    : option ScoreInfo :=
  match previous_ism with
  | None => None
  | Some previous_ism =>
      if Py.ltb 50 previous_ism && Py.leb current_ism 50 then
        Some (pack (8 + Py.min 2 (Qabs ism_change / 2)) "Long"
                   "Project Diffusion" "ISM troughs below 50")
      else if Py.ltb previous_ism 50 && Py.leb 50 current_ism then
        Some (pack (-8 - Py.min 2 (ism_change / 2)) "Short"
                   "Project Initiation" "ISM peaks above 50")
      else None
  end.

(** [ISMDataPoint.calculate_score] *)
Definition calculate_score (self : DataPoint) (previous_ism : option Q)
    : option ScoreInfo * DataPoint :=
  match change self with
  | None => (None, self)
  | Some ism_change =>
      let current_ism := value self in
      let info :=
        match transition previous_ism current_ism ism_change with
        | Some info => info
        | None => standard current_ism ism_change
        end in
      (Some info, set_score_info self info)
  end.

Definition add_data_point := Diffusion.add_data_point calculate_score.

Definition feed := Diffusion.feed calculate_score.

End ISM.

(** ** NMI.py *)

Module NMI.

Import Diffusion.
Local Open Scope Q_scope.

(** Scenarios 5 and 6 of [NMIDataPoint.calculate_score]. *)
Definition transition (previous_NMI : option Q) (current_NMI NMI_change : Q)
    : option ScoreInfo :=
  match previous_NMI with
  | None => None
  | Some previous_NMI =>
      if Py.ltb 50 previous_NMI && Py.leb current_NMI 50 then
        Some (pack (-8 - Py.min 2 (Qabs NMI_change / 2)) "Long"
                   "Project Diffusion" "NMI troughs below 50")
      else if Py.ltb previous_NMI 50 && Py.leb 50 current_NMI then
        Some (pack (8 + Py.min 2 (NMI_change / 2)) "Short"
                   "Project Initiation" "NMI peaks above 50")
      else None
  end.

(** [NMIDataPoint.calculate_score] *)
Definition calculate_score (self : DataPoint) (previous_NMI : option Q)
    : option ScoreInfo * DataPoint :=
  match change self with
  | None => (None, self)
  | Some NMI_change =>
      let current_NMI := value self in
      let info :=
        match transition previous_NMI current_NMI NMI_change with
        | Some info => info
        | None => standard current_NMI NMI_change
        end in
      (Some info, set_score_info self info)
  end.

Definition add_data_point := Diffusion.add_data_point calculate_score.

Definition feed := Diffusion.feed calculate_score.

End NMI.

(** ** M2.py *)

Module M2.

Local Open Scope Q_scope.

Record MonetaryDataPoint := mkPoint {
  date : Py.datetime;
  value : Q;
  three_month_avg : option Q;
  percent_change : option Q;
  score : option Q
}.

(** [MonetaryDataPoint.__init__] *)
Definition init (date : Py.datetime) (value : Q) : MonetaryDataPoint :=
  mkPoint date value None None None.

(** The cascade of [MonetaryDataPoint.calculate_score], in source order
    (the last band is the float [0.10]). *)
Definition band (value : Q) : Q :=
  if Py.leb 0.50 value then 4
  else if Py.leb 0.40 value then 6
  else if Py.leb 0.30 value then 10
  else if Py.leb 0.20 value then 8
  else if Py.leb 0.15 value then 6
  else if Py.leb 0.10 value then 4
  else if Py.leb 0.5 value then 0
  else if Py.leb 0.0 value then -4
  else if Py.leb (-0.5) value then -8
  else if Py.leb (-0.10) value then -10
  else if Py.leb (-0.15) value then 8
  else if Py.leb (-0.20) value then 10
  else if Py.leb (-0.30) value then 10
  else if Py.leb (-0.40) value then 10
  else 0.10.

(** [MonetaryDataPoint.calculate_score]: the returned score and the updated
    point.  [value] is a float here, so the [value is None] guard of the
    source does not fire. *)
Definition calculate_score (self : MonetaryDataPoint)
    : Q * MonetaryDataPoint :=
  let score := band (value self) in
  (score, mkPoint (date self) (value self) (three_month_avg self)
                  (percent_change self) (Some score)).

(** [MonetaryDataPoint.calculate_metrics].  [sum] adds exactly here; in the
    code the sum is a double, within rounding error of this one. *)
Definition calculate_metrics (self : MonetaryDataPoint)
    (previous_points : list MonetaryDataPoint) : MonetaryDataPoint :=
  if (2 <=? length previous_points)%nat then
    let recent_values :=
      (value <$> Py.slice_from (-2) previous_points) ++ [value self] in
    let self :=
      mkPoint (date self) (value self) (Some (Py.sum recent_values / 3))
              (percent_change self) (score self) in
    snd (calculate_score self)
  else self.

Record MonetaryDict := mkDict {
  d_date : string;
  d_value : Q;
  d_3_month_avg : option Q;
  d_percent_change : option Q;
  d_score : option Q
}.

(** [round(x, 2) if x else None]: [None] and [0.0] are both falsy. *)
Definition round2_if_truthy (x : option Q) : option Q :=
  match x with
  | None => None
  | Some x => if Qeq_bool x 0 then None else Some (Py.round2 x)
  end.

(** [MonetaryDataPoint.to_dict] *)
Definition to_dict (self : MonetaryDataPoint) : MonetaryDict :=
  mkDict (Py.strftime_Ymd (date self)) (value self)
         (round2_if_truthy (three_month_avg self))
         (round2_if_truthy (percent_change self))
         (score self).

Record MonetaryData := mkData { data_points : list MonetaryDataPoint }.

(** [MonetaryData.__init__] *)
Definition empty : MonetaryData := mkData [].

(** [MonetaryData.add_data_point] *)
Definition add_data_point (self : MonetaryData) (date : Py.datetime)
    (value : Q) : MonetaryData :=
  let new_point := init date value in
  let new_point := calculate_metrics new_point (data_points self) in
  let new_point :=
    match percent_change new_point with
    | Some _ => snd (calculate_score new_point)
    | None => new_point
    end in
  mkData (data_points self ++ [new_point]).

(** [[p for p in self.data_points if p.percent_change is not None]] *)
Definition valid_points (self : MonetaryData) : list MonetaryDataPoint :=
  List.filter (fun p => bool_decide (is_Some (percent_change p)))
              (data_points self).

Definition get_all_data (self : MonetaryData) : list MonetaryDict :=
  to_dict <$> valid_points self.

Definition get_last_n_months (self : MonetaryData) (n : Z)
    : list MonetaryDict :=
  to_dict <$> Py.slice_from (- n) (valid_points self).

Definition get_current_score (self : MonetaryData) : option MonetaryDict :=
  to_dict <$> last (valid_points self).

(** The rows of a sheet fed to [add_data_point] one after the other, as
    the loop of [load_from_excel] does. *)
Definition feed (self : MonetaryData) (rows : list (Py.datetime * Q))
    : MonetaryData :=
  fold_left (fun acc row => add_data_point acc (fst row) (snd row)) rows self.

End M2.

(** ** Readings as doubles

    The modules above take a reading as the rational it denotes and compute
    with it exactly.  Where a result of the code depends on the rounding of
    a double, it is read off the definitions of this module instead:
    [fl] is the rounding of binary64 arithmetic, to the nearest double with
    ties to the even mantissa (subnormals included; readings beyond the
    largest double are outside the model). *)

Module F64.

Local Open Scope Q_scope.

(** [2^e] for any integer [e]. *)
Definition pow2 (e : Z) : Q :=
  if (0 <=? e)%Z then inject_Z (2 ^ e) else 1 / inject_Z (2 ^ (- e)).

(** The binary exponent of a non-zero rational: the [t] with
    [2^t <= |q| < 2^(t+1)]. *)
Definition ilog2 (q : Q) : Z :=
  let t := (Z.log2 (Z.abs (Qnum q)) - Z.log2 (Z.pos (Qden q)))%Z in
  if Qle_bool (pow2 t) (Qabs q) then t else (t - 1)%Z.

(** The double nearest to [q]: 53 bits of mantissa, exponent not below
    that of the subnormals. *)
Definition fl (q : Q) : Q :=
  if Qeq_bool q 0 then 0
  else
    let e := Z.max (ilog2 q - 52) (-1074) in
    inject_Z (Py.round (q / pow2 e)) * pow2 e.

(** [a - b] on doubles. *)
Definition sub (a b : Q) : Q := fl (a - b).

(** [a + b] on doubles. *)
Definition add (a b : Q) : Q := fl (a + b).

(** [round(x, 1)] of a double: its exact value rounded to one decimal
    place, then the double nearest to that decimal. *)
Definition round1 (x : Q) : Q := fl (Py.round1 x).

(** The score of scenario 5 of [ISM.py] for a change that is a double:
    [round(+8 + min(2, abs(ism_change)/2), 1)]. *)
Definition ism_trough_score (ism_change : Q) : Q :=
  round1 (add 8 (Py.min 2 (fl (Qabs ism_change / 2)))).


(** The table step of [CPIDataPoint.calculate_score] for an average that
    is a double: the thresholds are the doubles nearest to the decimals of
    the source, and the difference [x[0] - cpi_12ma] is rounded before
    [abs]. *)
Definition list_score (table : list (Q * Z)) (cpi_12ma : Q) : option Z :=
  snd <$> Py.min_by (fun x => Qabs (sub (fl (fst x)) cpi_12ma)) table.

End F64.

(** ** Readings that are not numbers

    A float can also be NaN or an infinity.  The scorers are given here on
    such readings where a property needs them: [round] raises on them, and
    comparisons with NaN are false. *)

Module Ext.

Local Open Scope Q_scope.

Inductive pyfloat := Finite (q : Q) | Nan | Inf (negative : bool).

Inductive exn := ValueError | OverflowError.

Inductive result (A : Type) := Return (a : A) | Raise (e : exn).
Arguments Return {A} a.
Arguments Raise {A} e.

(** [round(x)] without digits: an [int]; [ValueError] on NaN and
    [OverflowError] on an infinity. *)
Definition round (x : pyfloat) : result Z :=
  match x with
  | Finite q => Return (Py.round q)
  | Nan => Raise ValueError
  | Inf _ => Raise OverflowError
  end.

(** [round(x, 1)]: a float; NaN and the infinities are returned as they
    are. *)
Definition round1 (x : pyfloat) : pyfloat :=
  match x with
  | Finite q => Finite (Py.round1 q)
  | Nan => Nan
  | Inf s => Inf s
  end.

(** [a < b]: false as soon as one side is NaN. *)
Definition lt (a b : pyfloat) : bool :=
  match a, b with
  | Nan, _ | _, Nan => false
  | Finite x, Finite y => Py.ltb x y
  | Finite _, Inf negative => negb negative
  | Inf negative, Finite _ => negative
  | Inf na, Inf nb => na && negb nb
  end.

(** [min(a, b)] and [max(a, b)], as in [Py]: the first argument is kept
    unless the second is strictly smaller (resp. larger). *)
Definition min (a b : pyfloat) : pyfloat := if lt b a then b else a.
Definition max (a b : pyfloat) : pyfloat := if lt a b then b else a.

Definition abs (x : pyfloat) : pyfloat :=
  match x with
  | Finite q => Finite (Qabs q)
  | Nan => Nan
  | Inf _ => Inf false
  end.

Definition neg (x : pyfloat) : pyfloat :=
  match x with
  | Finite q => Finite (- q)
  | Nan => Nan
  | Inf s => Inf (negb s)
  end.

Definition add (a b : pyfloat) : pyfloat :=
  match a, b with
  | Nan, _ | _, Nan => Nan
  | Finite x, Finite y => Finite (x + y)
  | Finite _, Inf s | Inf s, Finite _ => Inf s
  | Inf sa, Inf sb => if Bool.eqb sa sb then Inf sa else Nan
  end.

Definition sub (a b : pyfloat) : pyfloat := add a (neg b).

(** [x / 2] *)
Definition half (x : pyfloat) : pyfloat :=
  match x with
  | Finite q => Finite (q / 2)
  | Nan => Nan
  | Inf s => Inf s
  end.

(** [UMCSIDataPoint.calculate_score] for any float reading: the score, or
    the exception of [round]. *)
Definition umcsi_score (value : pyfloat) : result Z :=
  match round value with
  | Raise e => Raise e
  | Return rounded_value =>
      let clamped_value := UMCSI.clamp rounded_value in
      Return (default 0%Z (UMCSI.score_map !! clamped_value))
  end.

(** The [score_info] dict when the change is any float. *)
Record ScoreInfo := mkInfo {
  score : pyfloat;
  bias : string;
  phase : string;
  scenario : string
}.

Definition pack (score : pyfloat) (bias phase scenario : string) : ScoreInfo :=
  mkInfo (round1 score) (bias ++ " Bias") phase scenario.

(** The standard scenarios 1 to 4 for a finite reading and any change. *)
Definition standard (current : Q) (change : pyfloat) : ScoreInfo :=
  if Py.ltb 50 current then
    if lt (Finite 0) change then
      pack (add (Finite 5) (min (Finite 3) (half change))) "Short"
           "Initiation" "Above 50 and growing"
    else
      pack (max (Finite 0) (add (Finite 5) change)) "Short" "Initiation"
           "Above 50 and slowing"
  else
    if lt change (Finite 0) then
      pack (sub (Finite (-5)) (min (Finite 3) (half (abs change)))) "Long"
           "Definition" "Below 50 and slowing"
    else
      pack (min (Finite 0) (add (Finite (-5)) change)) "Long" "Definition"
           "Below 50 and growing".

(** Scenarios 5 and 6 of [ISMDataPoint.calculate_score]. *)
Definition ism_transition (previous_ism : option Q) (current_ism : Q)
    (ism_change : pyfloat) : option ScoreInfo :=
  match previous_ism with
  | None => None
  | Some previous_ism =>
      if Py.ltb 50 previous_ism && Py.leb current_ism 50 then
        Some (pack (add (Finite 8) (min (Finite 2) (half (abs ism_change))))
                   "Long" "Project Diffusion" "ISM troughs below 50")
      else if Py.ltb previous_ism 50 && Py.leb 50 current_ism then
        Some (pack (sub (Finite (-8)) (min (Finite 2) (half ism_change)))
                   "Short" "Project Initiation" "ISM peaks above 50")
      else None
  end.

(** Scenarios 5 and 6 of [NMIDataPoint.calculate_score]. *)
Definition nmi_transition (previous_NMI : option Q) (current_NMI : Q)
    (NMI_change : pyfloat) : option ScoreInfo :=
  match previous_NMI with
  | None => None
  | Some previous_NMI =>
      if Py.ltb 50 previous_NMI && Py.leb current_NMI 50 then
        Some (pack (sub (Finite (-8)) (min (Finite 2) (half (abs NMI_change))))
                   "Long" "Project Diffusion" "NMI troughs below 50")
      else if Py.ltb previous_NMI 50 && Py.leb 50 current_NMI then
        Some (pack (add (Finite 8) (min (Finite 2) (half NMI_change)))
                   "Short" "Project Initiation" "NMI peaks above 50")
      else None
  end.

(** The value returned by [ISMDataPoint.calculate_score] for a finite
    reading and a change that is absent or any float. *)
Definition ism_calculate_score (value : Q) (change : option pyfloat)
    (previous_ism : option Q) : option ScoreInfo :=
  match change with
  | None => None
  | Some ism_change =>
      Some match ism_transition previous_ism value ism_change with
           | Some info => info
           | None => standard value ism_change
           end
  end.

(** The value returned by [NMIDataPoint.calculate_score], likewise. *)
Definition nmi_calculate_score (value : Q) (change : option pyfloat)
    (previous_NMI : option Q) : option ScoreInfo :=
  match change with
  | None => None
  | Some NMI_change =>
      Some match nmi_transition previous_NMI value NMI_change with
           | Some info => info
           | None => standard value NMI_change
           end
  end.

(** A record of the exact model read as one of this module. *)
Definition of_info (info : Diffusion.ScoreInfo) : ScoreInfo :=
  mkInfo (Finite (Diffusion.score info)) (Diffusion.bias info)
         (Diffusion.phase info) (Diffusion.scenario info).

End Ext.

(** ** Predicates used to state the properties *)

Module Spec.

Local Open Scope Q_scope.

(** [r] is the first element of smallest key in [xs]: everything before it
    has a strictly larger key, everything after it a key at least as large. *)
Definition first_min {A : Type} (key : A -> Q) (xs : list A) (r : A) : Prop :=
  exists pre post,
    xs = pre ++ r :: post /\
    Forall (fun y => key r < key y) pre /\
    Forall (fun y => key r <= key y) post.

(** [(k, s)] is the entry of [table] whose key is nearest to [v], the first
    such entry in the order of the table. *)
Definition nearest_entry {K : Type} (num : K -> Q) (table : list (K * Z))
    (v : Q) (k : K) (s : Z) : Prop :=
  first_min (fun kv => Qabs (num (fst kv) - v)) table (k, s).

(** The readings for which neither diffusion transition applies: no
    previous reading, a previous reading of exactly 50, or both readings
    strictly on the same side of 50. *)
Definition same_side (prev : option Q) (cur : Q) : Prop :=
  match prev with
  | None => True
  | Some q => (50 < q /\ 50 < cur) \/ (q < 50 /\ cur < 50) \/ q == 50
  end.

(** [pts] is what a series fed with [rows], none of them with a change of
    its own, must hold: the dates and readings of the rows in order, a
    first point without change and without score, and every later point
    with the difference to its predecessor as change, and scored. *)
Definition series_of_differences (rows : list (Py.datetime * Q))
    (pts : list Diffusion.DataPoint) : Prop :=
  Diffusion.date <$> pts = fst <$> rows /\
  Diffusion.value <$> pts = snd <$> rows /\
  (forall p, pts !! 0%nat = Some p ->
     Diffusion.change p = None /\ Diffusion.score_info p = None) /\
  (forall i q p, pts !! i = Some q -> pts !! S i = Some p ->
     Diffusion.change p = Some (Diffusion.value p - Diffusion.value q) /\
     is_Some (Diffusion.score_info p)).

(** Rows of a sheet that has no [change] column. *)
Definition without_change (rows : list (Py.datetime * Q))
    : list (Py.datetime * Q * option Q) :=
  (fun r => (fst r, snd r, None)) <$> rows.

(** [pts] is what an M2 series fed with [rows] must hold: the readings of
    the rows in order; no score and no average on the first two points;
    on every later point the band of its own reading as score and the mean
    of its reading and the two before it as average. *)
Definition m2_series (rows : list (Py.datetime * Q))
    (pts : list M2.MonetaryDataPoint) : Prop :=
  M2.value <$> pts = snd <$> rows /\
  forall i p, pts !! i = Some p ->
    if (i <? 2)%nat then
      M2.score p = None /\ M2.three_month_avg p = None
    else
      M2.score p = Some (M2.band (M2.value p)) /\
      exists a b avg,
        pts !! (i - 2)%nat = Some a /\ pts !! (i - 1)%nat = Some b /\
        M2.three_month_avg p = Some avg /\
        avg == (M2.value a + M2.value b + M2.value p) / 3.

End Spec.

Import Spec.

(** * Properties *)

(** ** Facts about the Python builtins *)

Section PyFacts.

Local Open Scope Q_scope.

Lemma ltb_lt (x y : Q) : Py.ltb x y = true <-> x < y.
Proof.
  unfold Py.ltb. rewrite negb_true_iff, <- not_true_iff_false, Qle_bool_iff.
  split; [apply Qnot_le_lt | apply Qlt_not_le].
Qed.

Lemma ltb_ge (x y : Q) : Py.ltb x y = false <-> y <= x.
Proof.
  unfold Py.ltb. rewrite negb_false_iff. apply Qle_bool_iff.
Qed.

Lemma leb_le (x y : Q) : Py.leb x y = true <-> x <= y.
Proof. apply Qle_bool_iff. Qed.

Lemma leb_gt (x y : Q) : Py.leb x y = false <-> y < x.
Proof.
  unfold Py.leb. rewrite <- not_true_iff_false, Qle_bool_iff.
  split; [apply Qnot_le_lt | apply Qlt_not_le].
Qed.

(** [round] returns the floor or the floor plus one. *)
Lemma round_cases (x : Q) :
  (Py.round x = Qfloor x /\ x - inject_Z (Qfloor x) <= 1 # 2) \/
  (Py.round x = (Qfloor x + 1)%Z /\ 1 # 2 <= x - inject_Z (Qfloor x)).
Proof.
  unfold Py.round.
  destruct (Qcompare_spec (x - inject_Z (Qfloor x)) (1 # 2)) as [E | L | G].
  - destruct (Z.even (Qfloor x)); [left | right]; split; trivial;
      rewrite E; apply Qle_refl.
  - left. split; trivial. apply Qlt_le_weak, L.
  - right. split; trivial. apply Qlt_le_weak, G.
Qed.

(** [round x] is an integer nearest to [x]. *)
Lemma round_nearest (x : Q) : Qabs (x - inject_Z (Py.round x)) <= 1 # 2.
Proof.
  pose proof (Qfloor_le x) as Hlo. pose proof (Qlt_floor x) as Hhi.
  rewrite inject_Z_plus in Hhi.
  apply Qabs_Qle_condition.
  destruct (round_cases x) as [[-> H] | [-> H]];
    rewrite ?inject_Z_plus; change (inject_Z 1) with 1 in *; split; lra.
Qed.

Lemma round_le_Z (x : Q) (n : Z) : x <= inject_Z n -> (Py.round x <= n)%Z.
Proof.
  intros Hx. pose proof (Qfloor_le x) as Hlo.
  destruct (round_cases x) as [[-> H] | [-> H]].
  - rewrite Zle_Qle. lra.
  - assert (inject_Z (Qfloor x) < inject_Z n) as Hlt by lra.
    rewrite <- Zlt_Qlt in Hlt. lia.
Qed.

Lemma round_ge_Z (x : Q) (n : Z) : inject_Z n <= x -> (n <= Py.round x)%Z.
Proof.
  intros Hx. apply Qfloor_resp_le in Hx. rewrite Qfloor_Z in Hx.
  destruct (round_cases x) as [[-> H] | [-> H]]; lia.
Qed.

Lemma Qfloor_unique (y : Q) (n : Z) :
  inject_Z n <= y -> y < inject_Z (n + 1) -> Qfloor y = n.
Proof.
  intros Hlo Hhi.
  pose proof (Qfloor_le y) as Flo. pose proof (Qlt_floor y) as Fhi.
  assert (inject_Z n < inject_Z (Qfloor y + 1)) as H1 by lra.
  assert (inject_Z (Qfloor y) < inject_Z (n + 1)) as H2 by lra.
  rewrite <- Zlt_Qlt in H1, H2. lia.
Qed.

Lemma round_comp (x y : Q) : x == y -> Py.round x = Py.round y.
Proof.
  intros H. unfold Py.round. rewrite (Qfloor_comp x y H).
  assert (Qcompare (x - inject_Z (Qfloor y)) (1 # 2) =
          Qcompare (y - inject_Z (Qfloor y)) (1 # 2)) as -> by (rewrite H; reflexivity).
  reflexivity.
Qed.

(** Rounding to even is symmetric about zero. *)
Lemma round_opp (x : Q) : Py.round (- x) = (- Py.round x)%Z.
Proof.
  pose proof (Qfloor_le x) as Flo. pose proof (Qlt_floor x) as Fhi.
  rewrite inject_Z_plus in Fhi. change (inject_Z 1) with 1 in Fhi.
  unfold Py.round. remember (Qfloor x) as f eqn:Ef. clear Ef.
  destruct (Qeq_dec x (inject_Z f)) as [Hint | Hfrac].
  - assert (Qfloor (- x) = (- f)%Z) as Hf.
    { apply Qfloor_unique; rewrite ?inject_Z_plus, inject_Z_opp;
        change (inject_Z 1) with 1; lra. }
    rewrite Hf.
    destruct (Qcompare_spec (- x - inject_Z (- f)) (1 # 2)) as [E | L | G];
      rewrite inject_Z_opp in *; try lra.
    destruct (Qcompare_spec (x - inject_Z f) (1 # 2)) as [E' | L' | G'];
      try lra. reflexivity.
  - assert (inject_Z f < x) as Hlt.
    { apply Qle_lteq in Flo. destruct Flo as [? | E]; [assumption |].
      exfalso. apply Hfrac. symmetry. exact E. }
    assert (Qfloor (- x) = (- (f + 1))%Z) as Hf.
    { apply Qfloor_unique;
        rewrite ?inject_Z_plus, ?inject_Z_opp, ?inject_Z_plus;
        change (inject_Z 1) with 1; lra. }
    rewrite Hf.
    assert (inject_Z (- (f + 1)) == - inject_Z f - 1) as Hinj.
    { rewrite inject_Z_opp, inject_Z_plus. change (inject_Z 1) with 1. ring. }
    destruct (Qcompare_spec (- x - inject_Z (- (f + 1))) (1 # 2)) as [E | L | G];
      rewrite Hinj in *;
      destruct (Qcompare_spec (x - inject_Z f) (1 # 2)) as [E' | L' | G'];
      try lra; try lia.
    rewrite Z.even_opp, Z.even_add. simpl (Z.even 1).
    destruct (Z.even f); simpl; lia.
Qed.

Lemma round1_opp (x : Q) : Py.round1 (- x) == - Py.round1 x.
Proof.
  unfold Py.round1, Py.round_to.
  rewrite (round_comp (- x * inject_Z 10) (- (x * inject_Z 10))) by ring.
  rewrite round_opp, inject_Z_opp. field.
Qed.
Lemma round1_comp (x y : Q) : x == y -> Py.round1 x == Py.round1 y.
Proof.
  intros H. unfold Py.round1, Py.round_to.
  rewrite (round_comp (x * inject_Z 10) (y * inject_Z 10)) by (rewrite H; reflexivity).
  reflexivity.
Qed.

Lemma min_from_first_min {A : Type} (key : A -> Q) (xs : list A) :
  forall (pre mid : list A) (best : A),
    Forall (fun y => key best < key y) pre ->
    Forall (fun y => key best <= key y) mid ->
    first_min key (pre ++ best :: mid ++ xs) (Py.min_from key best xs).
Proof.
  induction xs as [| x xs IH]; intros pre mid best Hpre Hmid; simpl.
  - exists pre, mid. rewrite app_nil_r. auto.
  - destruct (Py.ltb (key x) (key best)) eqn:E.
    + apply ltb_lt in E.
      replace (pre ++ best :: mid ++ x :: xs)
        with ((pre ++ best :: mid) ++ x :: [] ++ xs)
        by (rewrite <- app_assoc; reflexivity).
      apply IH; [| constructor].
      apply Forall_app. split; [| constructor].
      * eapply Forall_impl; [exact Hpre |]. simpl. intros y Hy. lra.
      * exact E.
      * eapply Forall_impl; [exact Hmid |]. simpl. intros y Hy. lra.
    + apply ltb_ge in E.
      replace (pre ++ best :: mid ++ x :: xs)
        with (pre ++ best :: (mid ++ [x]) ++ xs)
        by (rewrite <- (app_assoc mid); reflexivity).
      apply IH; [exact Hpre |].
      apply Forall_app. split; [exact Hmid | constructor; [exact E | constructor]].
Qed.

Lemma min_by_first_min {A : Type} (key : A -> Q) (xs : list A) :
  xs <> [] -> exists r, Py.min_by key xs = Some r /\ first_min key xs r.
Proof.
  destruct xs as [| x xs]; [congruence | intros _].
  exists (Py.min_from key x xs). split; [reflexivity |].
  apply (min_from_first_min key xs [] [] x); constructor.
Qed.

Lemma first_min_le {A : Type} (key : A -> Q) (xs : list A) (r y : A) :
  first_min key xs r -> In y xs -> key r <= key y.
Proof.
  intros (pre & post & -> & Hpre & Hpost) Hy.
  rewrite Forall_forall in Hpre, Hpost.
  apply in_app_or in Hy. destruct Hy as [Hy | [<- | Hy]].
  - apply Qlt_le_weak, Hpre. apply list_elem_of_In, Hy.
  - apply Qle_refl.
  - apply Hpost. apply list_elem_of_In, Hy.
Qed.

End PyFacts.

(** ** Nearest-threshold lookup (IR%.py, PermitsSA.py, CPIUCSL.py) *)

Section Threshold.

Local Open Scope Q_scope.

Lemma Qabs_below (a v : Q) : a <= v -> Qabs (a - v) == v - a.
Proof.
  intros H. rewrite Qabs_neg by lra. ring.
Qed.

Lemma Qabs_above (a v : Q) : v <= a -> Qabs (a - v) == a - v.
Proof.
  intros H. apply Qabs_pos. lra.
Qed.

(** [find] skips a prefix on which the test fails. *)
Lemma find_skip {A : Type} (f : A -> bool) (pre : list A) (x : A)
    (post : list A) :
  Forall (fun y => f y = false) pre -> f x = true ->
  List.find f (pre ++ x :: post) = Some x.
Proof.
  induction 1 as [| y pre Hy _ IH]; intros Hx; simpl.
  - rewrite Hx. reflexivity.
  - rewrite Hy. apply IH, Hx.
Qed.

(** The dict scorers: the key chosen by [min] over [keys()] and the value
    fetched for it form the first nearest entry of the table. *)
Lemma dict_lookup_nearest (table : list (Z * Z)) (v : Q) :
  table <> [] ->
  exists k s,
    nearest_entry inject_Z table v k s /\
    IR._calculate_score_with table v = Some s.
Proof.
  intros Hne.
  destruct (min_by_first_min (fun x => Qabs (inject_Z x - v)) (map fst table))
    as (k & Hmin & kpre & kpost & Hsplit & Hpre & Hpost).
  { destruct table; [congruence | discriminate]. }
  apply map_eq_app in Hsplit. destruct Hsplit as (pre & rest & -> & <- & Hrest).
  apply map_eq_cons in Hrest. destruct Hrest as ([k' s] & post & -> & Hk & <-).
  simpl in Hk. subst k'.
  exists k, s. split.
  - exists pre, post. split; [reflexivity |].
    rewrite !Forall_forall in *. split; intros kv Hkv; simpl.
    + apply Hpre. apply list_elem_of_fmap. exists kv. auto.
    + apply Hpost. apply list_elem_of_fmap. exists kv. auto.
  - unfold IR._calculate_score_with. rewrite Hmin. simpl.
    unfold IR.getitem. rewrite find_skip; [reflexivity | | apply Z.eqb_refl].
    rewrite Forall_forall in Hpre. rewrite Forall_forall. intros kv Hkv.
    apply Z.eqb_neq. intros Heq.
    specialize (Hpre (fst kv)). rewrite Heq in Hpre.
    eapply Qlt_irrefl, Hpre. apply list_elem_of_fmap. exists kv. rewrite Heq. auto.
Qed.



End Threshold.

Section ThresholdClaims.

Local Open Scope Q_scope.





(** The permits scorer is written like the interest-rate one. *)
Lemma permits_as_dict_scorer (table : list (Z * Z)) (v : Q) :
  PermitsSA._calculate_score_with table v = IR._calculate_score_with table v.
Proof. reflexivity. Qed.

Lemma ir_lookup (v : Q) :
  exists k s,
    nearest_entry inject_Z IR.score_table v k s /\
    IR._calculate_score v = Some s.
Proof.
  unfold IR._calculate_score. apply dict_lookup_nearest. discriminate.
Qed.

Lemma permits_lookup (v : Q) :
  exists k s,
    nearest_entry inject_Z PermitsSA.score_table v k s /\
    PermitsSA._calculate_score v = Some s.
Proof.
  unfold PermitsSA._calculate_score. rewrite permits_as_dict_scorer.
  apply dict_lookup_nearest. discriminate.
Qed.




(** C7.  In the CPI scorer a 12-month average [v] with [|v| < 0.01] scores
    0 whatever the table holds (even an empty one), the point recording
    that score; and on the table of the source [score(1.0) = 10] and
    [score(0.0) = 0], which are also the scores of the table entries
    nearest to 1.0 and to 0.0. *)
Theorem cpi_zero_guard_and_table_scores (table : list (Q * Z))
    (p : CPIUCSL.CPIDataPoint) (v : Q) :
  (Qabs v < 0.01 ->
   CPIUCSL.calculate_score_with table p v =
   Some (0%Z, CPIUCSL.mkPoint (CPIUCSL.date p) (CPIUCSL.cpi_change p) (Some 0%Z))) /\
  fst <$> CPIUCSL.calculate_score p 1.0 = Some 10%Z /\
  fst <$> CPIUCSL.calculate_score p 0.0 = Some 0%Z /\
  CPIUCSL.closest_score CPIUCSL.score_table 1.0 = Some 10%Z /\
  CPIUCSL.closest_score CPIUCSL.score_table 0.0 = Some 0%Z.
Proof.
  split; [| split; [| split; [| split]]; vm_compute; reflexivity].
  intros Hv. unfold CPIUCSL.calculate_score_with.
  apply ltb_lt in Hv. rewrite Hv. reflexivity.
Qed.

Lemma cpi_zero_guard_and_table_scores_witness :
  CPIUCSL.calculate_score_with [] (CPIUCSL.init (Py.Datetime 2023 1 1) 0.2) 0.005 =
  Some (0%Z, CPIUCSL.mkPoint (Py.Datetime 2023 1 1) 0.2 (Some 0%Z)).
Proof.
  destruct (cpi_zero_guard_and_table_scores []
              (CPIUCSL.init (Py.Datetime 2023 1 1) 0.2) 0.005) as (H & _).
  apply H. unfold Qlt; simpl; lia.
Defined.

End ThresholdClaims.

(** ** Band lookup (UMCSI.py) *)

Section Band.

Local Open Scope Q_scope.

Lemma clamp_range (r : Z) : (55 <= UMCSI.clamp r <= 105)%Z.
Proof. unfold UMCSI.clamp. lia. Qed.

Lemma clamp_inside (r : Z) : (55 <= r <= 105)%Z -> UMCSI.clamp r = r.
Proof. unfold UMCSI.clamp. lia. Qed.

(** The table has an entry for every integer from 55 to 105. *)
Lemma score_map_dense (k : Z) :
  (55 <= k <= 105)%Z -> is_Some (UMCSI.score_map !! k).
Proof.
  intros Hk.
  assert (Forall (fun k => is_Some (UMCSI.score_map !! k)) (seqZ 55 51)) as Hall.
  { apply (bool_decide_unpack _). vm_compute. exact I. }
  rewrite Forall_forall in Hall. apply Hall, elem_of_seqZ. lia.
Qed.





End Band.

(** ** Diffusion scorers (ISM.py, NMI.py) *)

Section DiffusionClaims.

Import Diffusion.
Local Open Scope Q_scope.

Lemma ism_trough (prev cur c : Q) :
  50 < prev -> cur <= 50 ->
  ISM.transition (Some prev) cur c =
  Some (pack (8 + Py.min 2 (Qabs c / 2)) "Long" "Project Diffusion"
             "ISM troughs below 50").
Proof.
  intros Hp Hc. unfold ISM.transition.
  apply ltb_lt in Hp. apply leb_le in Hc. rewrite Hp, Hc. reflexivity.
Qed.

Lemma nmi_trough (prev cur c : Q) :
  50 < prev -> cur <= 50 ->
  NMI.transition (Some prev) cur c =
  Some (pack (-8 - Py.min 2 (Qabs c / 2)) "Long" "Project Diffusion"
             "NMI troughs below 50").
Proof.
  intros Hp Hc. unfold NMI.transition.
  apply ltb_lt in Hp. apply leb_le in Hc. rewrite Hp, Hc. reflexivity.
Qed.

(** Scoring leaves the reading and its change as they are. *)
Lemma ism_score_keeps_inputs (p : DataPoint) (prev : option Q) :
  value (snd (ISM.calculate_score p prev)) = value p /\
  change (snd (ISM.calculate_score p prev)) = change p.
Proof.
  unfold ISM.calculate_score. destruct (change p) eqn:E; simpl; auto.
Qed.

Lemma nmi_score_keeps_inputs (p : DataPoint) (prev : option Q) :
  value (snd (NMI.calculate_score p prev)) = value p /\
  change (snd (NMI.calculate_score p prev)) = change p.
Proof.
  unfold NMI.calculate_score. destruct (change p) eqn:E; simpl; auto.
Qed.


(** C2.  Feeding (Jan, 52.0), (Feb, 53.5), (Mar, 49.0), each without a
    change, to an empty ISM accumulator stores three points: January has
    no change and no score; February has the derived change 1.5 and the
    scenario "Above 50 and growing"; March has the scenario
    "ISM troughs below 50". *)
Theorem ism_three_month_run :
  let s0 := ISM.add_data_point empty (Py.Datetime 2023 1 1) 52.0 None in
  let s1 := ISM.add_data_point s0 (Py.Datetime 2023 2 1) 53.5 None in
  let s2 := ISM.add_data_point s1 (Py.Datetime 2023 3 1) 49.0 None in
  exists jan feb mar c,
    data_points s2 = [jan; feb; mar] /\
    change jan = None /\ score_info jan = None /\
    d_score (to_dict jan) = None /\
    change feb = Some c /\ c == 1.5 /\
    scenario <$> score_info feb = Some "Above 50 and growing"%string /\
    d_scenario (to_dict feb) = Some "Above 50 and growing"%string /\
    scenario <$> score_info mar = Some "ISM troughs below 50"%string /\
    d_scenario (to_dict mar) = Some "ISM troughs below 50"%string.
Proof.
  do 4 eexists. split; [vm_compute; reflexivity |].
  repeat (split; [vm_compute; reflexivity |]). vm_compute; reflexivity.
Qed.

End DiffusionClaims.

(** ** Series accumulators: the derived change *)

Section Accumulators.

Local Open Scope Q_scope.

Lemma diffusion_add_shape
    (calc : Diffusion.DataPoint -> option Q ->
            option Diffusion.ScoreInfo * Diffusion.DataPoint)
    (Hkeep : forall p prev,
        Diffusion.value (snd (calc p prev)) = Diffusion.value p /\
        Diffusion.change (snd (calc p prev)) = Diffusion.change p)
    (s : Diffusion.Data) (d : Py.datetime) (v : Q) :
  exists p,
    Diffusion.data_points (Diffusion.add_data_point calc s d v None) =
      Diffusion.data_points s ++ [p] /\
    Diffusion.value p = v /\
    match last (Diffusion.data_points s) with
    | None => Diffusion.change p = None
    | Some prev => Diffusion.change p = Some (v - Diffusion.value prev)
    end.
Proof.
  unfold Diffusion.add_data_point. eexists. split; [reflexivity |].
  destruct (Hkeep
    (Diffusion.init d v
       match last (Diffusion.data_points s) with
       | Some prev => Some (v - Diffusion.value prev)
       | None => None
       end)
    (Diffusion.value <$> last (Diffusion.data_points s))) as [Hv Hc].
  split; [exact Hv |].
  rewrite Hc. destruct (last (Diffusion.data_points s)); reflexivity.
Qed.

(** C9.  Appending a reading [v] without a change to an ISM, NMI or UMCSI
    accumulator stores one more point, with reading [v]; when the series
    was empty its change stays absent, otherwise its change is [v] minus
    the reading of the point appended last.  Appending 52.0 and then 53.5
    to an empty series gives the second point the change 1.5. *)
Theorem appended_change_is_difference (d : Py.datetime) (v : Q) :
  (forall s : Diffusion.Data, exists p,
      Diffusion.data_points (ISM.add_data_point s d v None) =
        Diffusion.data_points s ++ [p] /\
      Diffusion.value p = v /\
      match last (Diffusion.data_points s) with
      | None => Diffusion.change p = None
      | Some prev => Diffusion.change p = Some (v - Diffusion.value prev)
      end) /\
  (forall s : Diffusion.Data, exists p,
      Diffusion.data_points (NMI.add_data_point s d v None) =
        Diffusion.data_points s ++ [p] /\
      Diffusion.value p = v /\
      match last (Diffusion.data_points s) with
      | None => Diffusion.change p = None
      | Some prev => Diffusion.change p = Some (v - Diffusion.value prev)
      end) /\
  (forall s : UMCSI.UMCSIData, exists p,
      UMCSI.data_points (UMCSI.add_data_point s d v None) =
        UMCSI.data_points s ++ [p] /\
      UMCSI.value p = v /\
      match last (UMCSI.data_points s) with
      | None => UMCSI.change p = None
      | Some prev => UMCSI.change p = Some (v - UMCSI.value prev)
      end) /\
  (forall t1 t2, exists first second c,
      Diffusion.data_points
        (ISM.add_data_point (ISM.add_data_point Diffusion.empty t1 52.0 None)
                            t2 53.5 None) = [first; second] /\
      Diffusion.change first = None /\
      Diffusion.change second = Some c /\ c == 1.5) /\
  (forall t1 t2, exists first second c,
      Diffusion.data_points
        (NMI.add_data_point (NMI.add_data_point Diffusion.empty t1 52.0 None)
                            t2 53.5 None) = [first; second] /\
      Diffusion.change first = None /\
      Diffusion.change second = Some c /\ c == 1.5) /\
  (forall t1 t2, exists first second c,
      UMCSI.data_points
        (UMCSI.add_data_point (UMCSI.add_data_point UMCSI.empty t1 52.0 None)
                              t2 53.5 None) = [first; second] /\
      UMCSI.change first = None /\
      UMCSI.change second = Some c /\ c == 1.5).
Proof.
  split; [| split; [| split; [| split; [| split]]]].
  - intros s. apply diffusion_add_shape, ism_score_keeps_inputs.
  - intros s. apply diffusion_add_shape, nmi_score_keeps_inputs.
  - intros s. unfold UMCSI.add_data_point. eexists. split; [reflexivity |].
    simpl. split; [reflexivity |].
    destruct (last (UMCSI.data_points s)); reflexivity.
  - intros t1 t2. do 3 eexists. split; [vm_compute; reflexivity |].
    split; [reflexivity | split; [reflexivity | vm_compute; reflexivity]].
  - intros t1 t2. do 3 eexists. split; [vm_compute; reflexivity |].
    split; [reflexivity | split; [reflexivity | vm_compute; reflexivity]].
  - intros t1 t2. do 3 eexists. split; [vm_compute; reflexivity |].
    split; [reflexivity | split; [reflexivity | vm_compute; reflexivity]].
Qed.

End Accumulators.

(** ** Trend scorer and accumulator (M2.py) *)

Section Trend.

Local Open Scope Q_scope.

Lemma slice_last_two {A : Type} (pre : list A) (a b : A) :
  Py.slice_from (-2) (pre ++ [a; b]) = [a; b].
Proof.
  unfold Py.slice_from. change (-2 <? 0)%Z with true. cbv iota.
  rewrite length_app.
  replace (Z.to_nat (Z.max 0 (Z.of_nat (length pre + length [a; b]) + -2)))
    with (length pre) by (simpl length; lia).
  apply drop_app_length.
Qed.

Lemma slice_nil {A : Type} (start : Z) : Py.slice_from start (@nil A) = [].
Proof. unfold Py.slice_from. apply drop_nil. Qed.

(** What [calculate_metrics] does to a fresh point. *)
Lemma metrics_short (d : Py.datetime) (v : Q) (prevs : list M2.MonetaryDataPoint) :
  (length prevs < 2)%nat ->
  M2.calculate_metrics (M2.init d v) prevs = M2.init d v.
Proof.
  intros H. unfold M2.calculate_metrics.
  destruct (2 <=? length prevs)%nat eqn:E; [| reflexivity].
  apply Nat.leb_le in E. lia.
Qed.

Lemma metrics_long (d : Py.datetime) (v : Q) (prevs : list M2.MonetaryDataPoint) :
  (2 <= length prevs)%nat ->
  M2.calculate_metrics (M2.init d v) prevs =
  M2.mkPoint d v
    (Some (Py.sum ((M2.value <$> Py.slice_from (-2) prevs) ++ [v]) / 3))
    None (Some (M2.band v)).
Proof.
  intros H. unfold M2.calculate_metrics.
  apply Nat.leb_le in H. rewrite H. reflexivity.
Qed.

Lemma metrics_percent_change (d : Py.datetime) (v : Q)
    (prevs : list M2.MonetaryDataPoint) :
  M2.percent_change (M2.calculate_metrics (M2.init d v) prevs) = None.
Proof.
  destruct (le_lt_dec 2 (length prevs)) as [H | H].
  - rewrite metrics_long by exact H. reflexivity.
  - rewrite metrics_short by exact H. reflexivity.
Qed.

(** [add_data_point] appends the point left by [calculate_metrics]; the
    second scoring attempt is never made. *)
Lemma m2_add_unfold (s : M2.MonetaryData) (d : Py.datetime) (v : Q) :
  M2.data_points (M2.add_data_point s d v) =
  M2.data_points s ++ [M2.calculate_metrics (M2.init d v) (M2.data_points s)].
Proof.
  unfold M2.add_data_point. rewrite metrics_percent_change. reflexivity.
Qed.

Lemma m2_add_keeps_absent (s : M2.MonetaryData) (d : Py.datetime) (v : Q) :
  Forall (fun p => M2.percent_change p = None) (M2.data_points s) ->
  Forall (fun p => M2.percent_change p = None)
         (M2.data_points (M2.add_data_point s d v)).
Proof.
  intros H. rewrite m2_add_unfold. apply Forall_app. split; [exact H |].
  constructor; [apply metrics_percent_change | constructor].
Qed.

Lemma m2_feed_invariant (rows : list (Py.datetime * Q)) :
  forall s : M2.MonetaryData,
    Forall (fun p => M2.percent_change p = None) (M2.data_points s) ->
    Forall (fun p => M2.percent_change p = None)
           (M2.data_points (M2.feed s rows)) /\
    length (M2.data_points (M2.feed s rows)) =
      (length (M2.data_points s) + length rows)%nat.
Proof.
  induction rows as [| [d v] rows IH]; intros s Hs; simpl.
  - split; [exact Hs | lia].
  - destruct (IH (M2.add_data_point s d v) (m2_add_keeps_absent s d v Hs))
      as [Hall Hlen].
    split; [exact Hall |].
    rewrite Hlen, m2_add_unfold, length_app. simpl. lia.
Qed.

Lemma valid_points_nil (s : M2.MonetaryData) :
  Forall (fun p => M2.percent_change p = None) (M2.data_points s) ->
  M2.valid_points s = [].
Proof.
  unfold M2.valid_points. induction 1 as [| p ps Hp _ IH]; simpl.
  - reflexivity.
  - rewrite Hp. simpl. exact IH.
Qed.

(** C4.  Whatever rows are appended to a new M2 accumulator, every stored
    point (one per row) has [percent_change] absent; hence [get_all_data]
    and [get_last_n_months(n)] return the empty list and
    [get_current_score] returns nothing. *)
Theorem m2_percent_change_never_set (rows : list (Py.datetime * Q)) (n : Z) :
  let s := M2.feed M2.empty rows in
  length (M2.data_points s) = length rows /\
  Forall (fun p => M2.percent_change p = None) (M2.data_points s) /\
  M2.get_all_data s = [] /\
  M2.get_last_n_months s n = [] /\
  M2.get_current_score s = None.
Proof.
  intros s.
  destruct (m2_feed_invariant rows M2.empty) as [Hall Hlen]; [constructor |].
  fold s in Hall, Hlen.
  split; [exact Hlen |]. split; [exact Hall |].
  unfold M2.get_all_data, M2.get_last_n_months, M2.get_current_score.
  rewrite (valid_points_nil s Hall), slice_nil. auto.
Qed.

(** C10.  Appending a reading [v] to an M2 accumulator stores one more
    point with that reading.  With fewer than two earlier points its
    [three_month_avg] is absent; when the two points appended last are [a]
    and [b], the average is [(a + b + v) / 3] and the score is the band of
    [v] alone: any other accumulator with at least two points gives the new
    point the same score. *)
Theorem m2_average_beside_score (s : M2.MonetaryData) (d : Py.datetime)
    (v : Q) :
  exists p,
    M2.data_points (M2.add_data_point s d v) = M2.data_points s ++ [p] /\
    M2.value p = v /\
    ((length (M2.data_points s) < 2)%nat -> M2.three_month_avg p = None) /\
    (forall pre a b,
        M2.data_points s = pre ++ [a; b] ->
        (exists avg,
            M2.three_month_avg p = Some avg /\
            avg == (M2.value a + M2.value b + v) / 3) /\
        M2.score p = Some (M2.band v) /\
        forall s' : M2.MonetaryData,
          (2 <= length (M2.data_points s'))%nat ->
          M2.score <$> last (M2.data_points (M2.add_data_point s' d v)) =
          Some (M2.score p)).
Proof.
  exists (M2.calculate_metrics (M2.init d v) (M2.data_points s)).
  split; [apply m2_add_unfold |].
  destruct (le_lt_dec 2 (length (M2.data_points s))) as [H | H].
  - rewrite metrics_long by exact H.
    split; [reflexivity |]. split; [intros H'; lia |].
    intros pre a b Hs. split; [| split; [reflexivity |]].
    + eexists. split; [reflexivity |].
      rewrite Hs, slice_last_two. unfold Py.sum. simpl. field.
    + intros s' H'. rewrite m2_add_unfold, last_snoc, metrics_long by exact H'.
      reflexivity.
  - rewrite metrics_short by exact H.
    split; [reflexivity |]. split; [reflexivity |].
    intros pre a b Hs. rewrite Hs, length_app in H. simpl in H. lia.
Qed.

Lemma m2_average_beside_score_witness :
  exists p avg,
    M2.data_points
      (M2.add_data_point
         (M2.feed M2.empty [(Py.Datetime 2023 1 1, 0.3); (Py.Datetime 2023 2 1, 0.2)])
         (Py.Datetime 2023 3 1) 0.45) =
    M2.data_points
      (M2.feed M2.empty [(Py.Datetime 2023 1 1, 0.3); (Py.Datetime 2023 2 1, 0.2)])
    ++ [p] /\
    M2.three_month_avg p = Some avg /\
    avg == (0.3 + 0.2 + 0.45) / 3 /\
    M2.score p = Some (M2.band 0.45).
Proof.
  destruct (m2_average_beside_score
              (M2.feed M2.empty [(Py.Datetime 2023 1 1, 0.3); (Py.Datetime 2023 2 1, 0.2)])
              (Py.Datetime 2023 3 1) 0.45) as (p & Hp & _ & _ & Hlong).
  destruct (Hlong [] (M2.init (Py.Datetime 2023 1 1) 0.3)
                  (M2.init (Py.Datetime 2023 2 1) 0.2))
    as ((avg & Havg & Heq) & Hscore & _).
  - reflexivity.
  - exists p, avg. split; [exact Hp |]. split; [exact Havg |].
    split; [exact Heq | exact Hscore].
Defined.

End Trend.

(** ** Which appended observations carry a score *)

Section ScorePresence.

Local Open Scope Q_scope.

Lemma cpi_row_scored (d : Py.datetime) (c ma12 : Q) :
  exists dict s,
    CPIUCSL.process_row d c ma12 = Some dict /\
    CPIUCSL.d_score dict = Some s.
Proof.
  unfold CPIUCSL.process_row, CPIUCSL.calculate_score,
    CPIUCSL.calculate_score_with.
  destruct (Py.ltb (Qabs ma12) 0.01).
  - do 2 eexists. split; reflexivity.
  - destruct (min_by_first_min (fun x : Q * Z => Qabs (fst x - ma12))
                CPIUCSL.score_table) as (r & Hr & _); [discriminate |].
    unfold CPIUCSL.closest_score. rewrite Hr.
    do 2 eexists. split; reflexivity.
Qed.

Lemma diffusion_add_scored
    (calc : Diffusion.DataPoint -> option Q ->
            option Diffusion.ScoreInfo * Diffusion.DataPoint)
    (Hcalc : forall p prev,
        match Diffusion.change p with
        | None => calc p prev = (None, p)
        | Some _ =>
            exists info, calc p prev = (Some info, Diffusion.set_score_info p info)
        end)
    (s : Diffusion.Data) (d : Py.datetime) (v : Q) (c : option Q) :
  exists p,
    Diffusion.data_points (Diffusion.add_data_point calc s d v c) =
      Diffusion.data_points s ++ [p] /\
    match Diffusion.change p with
    | Some _ =>
        exists info,
          Diffusion.score_info p = Some info /\
          Diffusion.d_score (Diffusion.to_dict p) = Some (Diffusion.score info)
    | None =>
        Diffusion.score_info p = None /\
        Diffusion.d_score (Diffusion.to_dict p) = None
    end.
Proof.
  unfold Diffusion.add_data_point. eexists. split; [reflexivity |].
  match goal with
  | |- context [calc ?p ?prev] =>
      specialize (Hcalc p prev); remember p as q eqn:Hq
  end.
  assert (Diffusion.score_info q = None) as Hfresh by (subst q; reflexivity).
  clear Hq.
  destruct (Diffusion.change q) as [c0 |] eqn:E.
  - destruct Hcalc as [info ->]. simpl. rewrite E. exists info. split; reflexivity.
  - rewrite Hcalc. simpl. rewrite E.
    unfold Diffusion.to_dict. rewrite Hfresh. split; reflexivity.
Qed.

Lemma ism_calc_shape (p : Diffusion.DataPoint) (prev : option Q) :
  match Diffusion.change p with
  | None => ISM.calculate_score p prev = (None, p)
  | Some _ =>
      exists info,
        ISM.calculate_score p prev = (Some info, Diffusion.set_score_info p info)
  end.
Proof. unfold ISM.calculate_score. destruct (Diffusion.change p); eauto. Qed.

Lemma nmi_calc_shape (p : Diffusion.DataPoint) (prev : option Q) :
  match Diffusion.change p with
  | None => NMI.calculate_score p prev = (None, p)
  | Some _ =>
      exists info,
        NMI.calculate_score p prev = (Some info, Diffusion.set_score_info p info)
  end.
Proof. unfold NMI.calculate_score. destruct (Diffusion.change p); eauto. Qed.

(** C3, as the code has it.  A reading always gets a score from the
    interest-rate, permits and CPI scorers and from the UMCSI accumulator.
    A point appended to an ISM or NMI series has a score record exactly
    when it carries a change (given or derived); without one the score is
    absent, not a number.  A point appended to the M2 series after at least
    two earlier points has the score of its reading. *)
Theorem score_present_with_required_inputs (d : Py.datetime) (v : Q) :
  (exists p, IR.init d v = Some p) /\
  (exists p, PermitsSA.init d v = Some p) /\
  (forall c, exists dict s,
      CPIUCSL.process_row d c v = Some dict /\
      CPIUCSL.d_score dict = Some s) /\
  (forall (s : UMCSI.UMCSIData) c, exists p,
      UMCSI.data_points (UMCSI.add_data_point s d v c) =
        UMCSI.data_points s ++ [p] /\
      UMCSI.score p = Some (UMCSI.score_of v) /\
      UMCSI.d_score (UMCSI.to_dict p) = Some (UMCSI.score_of v)) /\
  (forall (s : Diffusion.Data) c, exists p,
      Diffusion.data_points (ISM.add_data_point s d v c) =
        Diffusion.data_points s ++ [p] /\
      match Diffusion.change p with
      | Some _ =>
          exists info,
            Diffusion.score_info p = Some info /\
            Diffusion.d_score (Diffusion.to_dict p) = Some (Diffusion.score info)
      | None =>
          Diffusion.score_info p = None /\
          Diffusion.d_score (Diffusion.to_dict p) = None
      end) /\
  (forall (s : Diffusion.Data) c, exists p,
      Diffusion.data_points (NMI.add_data_point s d v c) =
        Diffusion.data_points s ++ [p] /\
      match Diffusion.change p with
      | Some _ =>
          exists info,
            Diffusion.score_info p = Some info /\
            Diffusion.d_score (Diffusion.to_dict p) = Some (Diffusion.score info)
      | None =>
          Diffusion.score_info p = None /\
          Diffusion.d_score (Diffusion.to_dict p) = None
      end) /\
  (forall s : M2.MonetaryData,
      (2 <= length (M2.data_points s))%nat ->
      exists p,
        M2.data_points (M2.add_data_point s d v) = M2.data_points s ++ [p] /\
        M2.score p = Some (M2.band v) /\
        M2.d_score (M2.to_dict p) = Some (M2.band v)).
Proof.
  split; [| split; [| split; [| split; [| split; [| split]]]]].
  - destruct (ir_lookup v) as (k & s & _ & Hs).
    eexists. unfold IR.init. rewrite Hs. reflexivity.
  - destruct (permits_lookup v) as (k & s & _ & Hs).
    eexists. unfold PermitsSA.init. rewrite Hs. reflexivity.
  - intros c. apply cpi_row_scored.
  - intros s c. eexists. split; [reflexivity |]. split; reflexivity.
  - intros s c. apply diffusion_add_scored, ism_calc_shape.
  - intros s c. apply diffusion_add_scored, nmi_calc_shape.
  - intros s H. eexists. split; [apply m2_add_unfold |].
    rewrite metrics_long by exact H. split; reflexivity.
Qed.

Lemma score_present_with_required_inputs_witness :
  exists p,
    M2.data_points
      (M2.add_data_point
         (M2.feed M2.empty [(Py.Datetime 2023 1 1, 0.3); (Py.Datetime 2023 2 1, 0.2)])
         (Py.Datetime 2023 3 1) 0.45) =
    M2.data_points
      (M2.feed M2.empty [(Py.Datetime 2023 1 1, 0.3); (Py.Datetime 2023 2 1, 0.2)])
    ++ [p] /\
    M2.score p = Some (M2.band 0.45) /\
    M2.d_score (M2.to_dict p) = Some (M2.band 0.45).
Proof.
  destruct (score_present_with_required_inputs (Py.Datetime 2023 3 1) 0.45)
    as (_ & _ & _ & _ & _ & _ & H).
  apply H. simpl. lia.
Defined.

(** C3, as stated, fails on the M2 series: the first point appended to a
    new accumulator carries its reading 0.3 and has no score. *)
Lemma m2_first_point_has_no_score :
  exists p,
    M2.data_points (M2.add_data_point M2.empty (Py.Datetime 2023 1 1) 0.3) = [p] /\
    M2.value p = 0.3 /\
    M2.score p = None /\
    M2.d_score (M2.to_dict p) = None.
Proof.
  eexists. split; [vm_compute; reflexivity |].
  split; [reflexivity |]. split; reflexivity.
Qed.

End ScorePresence.

(** * Further properties of the scoring code *)

(** ** More facts about the builtins *)

Section PyMore.

Local Open Scope Q_scope.

Lemma py_min_cases (a b : Q) :
  (b < a /\ Py.min a b = b) \/ (a <= b /\ Py.min a b = a).
Proof.
  unfold Py.min. destruct (Py.ltb b a) eqn:E.
  - left. split; [apply ltb_lt, E | reflexivity].
  - right. split; [apply ltb_ge, E | reflexivity].
Qed.

Lemma py_max_cases (a b : Q) :
  (a < b /\ Py.max a b = b) \/ (b <= a /\ Py.max a b = a).
Proof.
  unfold Py.max. destruct (Py.ltb a b) eqn:E.
  - left. split; [apply ltb_lt, E | reflexivity].
  - right. split; [apply ltb_ge, E | reflexivity].
Qed.

(** A value between two tenths stays between them when rounded to one
    decimal place (the bounds are given in tenths). *)
Lemma round1_between (lo hi : Z) (x : Q) :
  inject_Z lo <= 10 * x -> 10 * x <= inject_Z hi ->
  inject_Z lo <= 10 * Py.round1 x /\ 10 * Py.round1 x <= inject_Z hi.
Proof.
  intros Hlo Hhi. unfold Py.round1, Py.round_to.
  change (inject_Z 10) with 10.
  assert (inject_Z lo <= x * 10) as H1 by lra.
  assert (x * 10 <= inject_Z hi) as H2 by lra.
  apply round_ge_Z in H1. apply round_le_Z in H2.
  rewrite Zle_Qle in H1, H2.
  assert (10 * (inject_Z (Py.round (x * 10)) / 10) ==
          inject_Z (Py.round (x * 10))) as -> by field.
  split; assumption.
Qed.

(** A reading nearer than one half to an integer rounds to it. *)
Lemma round_near (v : Q) (k : Z) :
  Qabs (v - inject_Z k) < 1 # 2 -> Py.round v = k.
Proof.
  intros H. apply Qabs_Qlt_condition in H. destruct H as [H1 H2].
  pose proof (Qfloor_le v) as Flo. pose proof (Qlt_floor v) as Fhi.
  rewrite inject_Z_plus in Fhi. change (inject_Z 1) with 1 in Fhi.
  destruct (round_cases v) as [[-> H] | [-> H]].
  - assert (inject_Z (Qfloor v) < inject_Z (k + 1)) as A
      by (rewrite inject_Z_plus; change (inject_Z 1) with 1; lra).
    assert (inject_Z (k - 1) < inject_Z (Qfloor v)) as B.
    { replace (k - 1)%Z with (k + -1)%Z by lia.
      rewrite inject_Z_plus. change (inject_Z (-1)) with (-1). lra. }
    rewrite <- Zlt_Qlt in A, B. lia.
  - assert (inject_Z (Qfloor v) < inject_Z k) as A by lra.
    assert (inject_Z (k - 2) < inject_Z (Qfloor v)) as B.
    { replace (k - 2)%Z with (k + -2)%Z by lia.
      rewrite inject_Z_plus. change (inject_Z (-2)) with (-2). lra. }
    rewrite <- Zlt_Qlt in A, B. lia.
Qed.

(** Half-way between two integers [round] goes to the even one. *)
Lemma round_half (k : Z) :
  Py.round (inject_Z k + (1 # 2)) = if Z.even k then k else (k + 1)%Z.
Proof.
  assert (Qfloor (inject_Z k + (1 # 2)) = k) as Hf.
  { apply Qfloor_unique; rewrite ?inject_Z_plus;
      change (inject_Z 1) with 1; lra. }
  unfold Py.round. rewrite Hf.
  destruct (Qcompare_spec (inject_Z k + (1 # 2) - inject_Z k) (1 # 2))
    as [E | L | G]; try lra. reflexivity.
Qed.

End PyMore.

(** ** Diffusion scorers: the other branches *)

Section DiffusionMore.

Import Diffusion.
Local Open Scope Q_scope.

Lemma half_double (c : Q) : 2 * (c / 2) == c.
Proof. field. Qed.

Lemma ism_peak (prev cur c : Q) :
  prev < 50 -> 50 <= cur ->
  ISM.transition (Some prev) cur c =
  Some (pack (-8 - Py.min 2 (c / 2)) "Short" "Project Initiation"
             "ISM peaks above 50").
Proof.
  intros Hp Hc. unfold ISM.transition.
  assert (Py.ltb 50 prev = false) as -> by (apply ltb_ge; lra).
  apply ltb_lt in Hp. apply leb_le in Hc. rewrite Hp, Hc. reflexivity.
Qed.

Lemma nmi_peak (prev cur c : Q) :
  prev < 50 -> 50 <= cur ->
  NMI.transition (Some prev) cur c =
  Some (pack (8 + Py.min 2 (c / 2)) "Short" "Project Initiation"
             "NMI peaks above 50").
Proof.
  intros Hp Hc. unfold NMI.transition.
  assert (Py.ltb 50 prev = false) as -> by (apply ltb_ge; lra).
  apply ltb_lt in Hp. apply leb_le in Hc. rewrite Hp, Hc. reflexivity.
Qed.

Lemma ism_no_transition (prev : option Q) (cur c : Q) :
  same_side prev cur -> ISM.transition prev cur c = None.
Proof.
  destruct prev as [q |]; [| reflexivity]. simpl. unfold ISM.transition.
  intros [[Hq Hc] | [[Hq Hc] | Hq]].
  - assert (Py.leb cur 50 = false) as -> by (apply leb_gt; lra).
    assert (Py.ltb q 50 = false) as -> by (apply ltb_ge; lra).
    rewrite andb_false_r. reflexivity.
  - assert (Py.ltb 50 q = false) as -> by (apply ltb_ge; lra).
    assert (Py.leb 50 cur = false) as -> by (apply leb_gt; lra).
    rewrite andb_false_r. reflexivity.
  - assert (Py.ltb 50 q = false) as -> by (apply ltb_ge; lra).
    assert (Py.ltb q 50 = false) as -> by (apply ltb_ge; lra).
    reflexivity.
Qed.

Lemma nmi_no_transition (prev : option Q) (cur c : Q) :
  same_side prev cur -> NMI.transition prev cur c = None.
Proof.
  destruct prev as [q |]; [| reflexivity]. simpl. unfold NMI.transition.
  intros [[Hq Hc] | [[Hq Hc] | Hq]].
  - assert (Py.leb cur 50 = false) as -> by (apply leb_gt; lra).
    assert (Py.ltb q 50 = false) as -> by (apply ltb_ge; lra).
    rewrite andb_false_r. reflexivity.
  - assert (Py.ltb 50 q = false) as -> by (apply ltb_ge; lra).
    assert (Py.leb 50 cur = false) as -> by (apply leb_gt; lra).
    rewrite andb_false_r. reflexivity.
  - assert (Py.ltb 50 q = false) as -> by (apply ltb_ge; lra).
    assert (Py.ltb q 50 = false) as -> by (apply ltb_ge; lra).
    reflexivity.
Qed.

(** X2.  Without a previous reading, or when the previous reading is
    exactly 50, or when both readings lie strictly on the same side of 50,
    neither transition applies: ISM and NMI then return the same record,
    that of the standard scenario for the current reading and change. *)
Theorem no_transition_gives_standard (p : DataPoint) (c : Q)
    (prev : option Q) :
  change p = Some c ->
  match prev with
  | None => True
  | Some q => (50 < q /\ 50 < value p) \/ (q < 50 /\ value p < 50) \/ q == 50
  end ->
  ISM.calculate_score p prev =
    (Some (standard (value p) c), set_score_info p (standard (value p) c)) /\
  NMI.calculate_score p prev =
    (Some (standard (value p) c), set_score_info p (standard (value p) c)).
Proof.
  intros Hc Hside. split.
  - unfold ISM.calculate_score.
    rewrite Hc, (ism_no_transition prev (value p) c Hside). reflexivity.
  - unfold NMI.calculate_score.
    rewrite Hc, (nmi_no_transition prev (value p) c Hside). reflexivity.
Qed.

Lemma no_transition_gives_standard_witness :
  fst (ISM.calculate_score (init (Py.Datetime 2023 1 1) 49 (Some (-2))) None) =
  Some (standard 49 (-2)) /\
  fst (NMI.calculate_score (init (Py.Datetime 2023 1 1) 49 (Some (-2)))
                           (Some 50)) =
  Some (standard 49 (-2)).
Proof.
  split.
  - destruct (no_transition_gives_standard
                (init (Py.Datetime 2023 1 1) 49 (Some (-2))) (-2) None)
      as (Hi & _); [reflexivity | exact I |].
    rewrite Hi. reflexivity.
  - destruct (no_transition_gives_standard
                (init (Py.Datetime 2023 1 1) 49 (Some (-2))) (-2) (Some 50))
      as (_ & Hn); [reflexivity | right; right; reflexivity |].
    rewrite Hn. reflexivity.
Defined.

(** Ranges of the four standard raw scores and of the trough one. *)
Lemma growing_above_range (c : Q) :
  0 < c -> 50 <= 10 * (5 + Py.min 3 (c / 2)) /\ 10 * (5 + Py.min 3 (c / 2)) <= 80.
Proof.
  intros Hc. pose proof (half_double c) as Hh.
  destruct (py_min_cases 3 (c / 2)) as [[H ->] | [H ->]]; split; lra.
Qed.

Lemma slowing_above_range (c : Q) :
  c <= 0 -> 0 <= 10 * Py.max 0 (5 + c) /\ 10 * Py.max 0 (5 + c) <= 50.
Proof.
  intros Hc.
  destruct (py_max_cases 0 (5 + c)) as [[H ->] | [H ->]]; split; lra.
Qed.

Lemma slowing_below_range (c : Q) :
  c < 0 ->
  -80 <= 10 * (-5 - Py.min 3 (Qabs c / 2)) /\
  10 * (-5 - Py.min 3 (Qabs c / 2)) <= -50.
Proof.
  intros Hc. pose proof (half_double (Qabs c)) as Hh.
  pose proof (Qabs_nonneg c) as Ha.
  destruct (py_min_cases 3 (Qabs c / 2)) as [[H ->] | [H ->]]; split; lra.
Qed.

Lemma growing_below_range (c : Q) :
  0 <= c -> -50 <= 10 * Py.min 0 (-5 + c) /\ 10 * Py.min 0 (-5 + c) <= 0.
Proof.
  intros Hc.
  destruct (py_min_cases 0 (-5 + c)) as [[H ->] | [H ->]]; split; lra.
Qed.

Lemma trough_range (c : Q) :
  80 <= 10 * (8 + Py.min 2 (Qabs c / 2)) /\
  10 * (8 + Py.min 2 (Qabs c / 2)) <= 100.
Proof.
  pose proof (half_double (Qabs c)) as Hh.
  pose proof (Qabs_nonneg c) as Ha.
  destruct (py_min_cases 2 (Qabs c / 2)) as [[H ->] | [H ->]]; split; lra.
Qed.

Lemma peak_range (c : Q) :
  0 <= c ->
  80 <= 10 * (8 + Py.min 2 (c / 2)) /\ 10 * (8 + Py.min 2 (c / 2)) <= 100.
Proof.
  intros Hc. pose proof (half_double c) as Hh.
  destruct (py_min_cases 2 (c / 2)) as [[H ->] | [H ->]]; split; lra.
Qed.

(** [round1] keeps a raw score inside a range whose ends are tenths. *)
Lemma round1_range (lo hi : Z) (x a b : Q) :
  a == inject_Z lo / 10 -> b == inject_Z hi / 10 ->
  10 * a <= 10 * x /\ 10 * x <= 10 * b ->
  a <= Py.round1 x /\ Py.round1 x <= b.
Proof.
  intros Ha Hb [H1 H2].
  assert (10 * a == inject_Z lo) as Ea by (rewrite Ha; field).
  assert (10 * b == inject_Z hi) as Eb by (rewrite Hb; field).
  rewrite Ea in H1. rewrite Eb in H2.
  destruct (round1_between lo hi x H1 H2) as [R1 R2].
  rewrite <- Ea in R1. rewrite <- Eb in R2. split; lra.
Qed.

(** The four standard scenarios with the ranges of their scores. *)
Lemma standard_cases (cur c : Q) :
  (50 < cur -> 0 < c ->
   scenario (standard cur c) = "Above 50 and growing"%string /\
   bias (standard cur c) = "Short Bias"%string /\
   phase (standard cur c) = "Initiation"%string /\
   5 <= score (standard cur c) /\ score (standard cur c) <= 8) /\
  (50 < cur -> c <= 0 ->
   scenario (standard cur c) = "Above 50 and slowing"%string /\
   bias (standard cur c) = "Short Bias"%string /\
   phase (standard cur c) = "Initiation"%string /\
   0 <= score (standard cur c) /\ score (standard cur c) <= 5) /\
  (cur <= 50 -> c < 0 ->
   scenario (standard cur c) = "Below 50 and slowing"%string /\
   bias (standard cur c) = "Long Bias"%string /\
   phase (standard cur c) = "Definition"%string /\
   -8 <= score (standard cur c) /\ score (standard cur c) <= -5) /\
  (cur <= 50 -> 0 <= c ->
   scenario (standard cur c) = "Below 50 and growing"%string /\
   bias (standard cur c) = "Long Bias"%string /\
   phase (standard cur c) = "Definition"%string /\
   -5 <= score (standard cur c) /\ score (standard cur c) <= 0).
Proof.
  split; [| split; [| split]]; intros Hcur Hc; unfold standard.
  - apply ltb_lt in Hcur. rewrite Hcur.
    assert (Py.ltb 0 c = true) as -> by (apply ltb_lt; exact Hc).
    do 3 (split; [reflexivity |]).
    apply (round1_range 50 80); [reflexivity | reflexivity |].
    destruct (growing_above_range c Hc). split; lra.
  - apply ltb_lt in Hcur. rewrite Hcur.
    assert (Py.ltb 0 c = false) as -> by (apply ltb_ge; exact Hc).
    do 3 (split; [reflexivity |]).
    apply (round1_range 0 50); [reflexivity | reflexivity |].
    destruct (slowing_above_range c Hc). split; lra.
  - assert (Py.ltb 50 cur = false) as -> by (apply ltb_ge; exact Hcur).
    assert (Py.ltb c 0 = true) as -> by (apply ltb_lt; exact Hc).
    do 3 (split; [reflexivity |]).
    apply (round1_range (-80) (-50)); [reflexivity | reflexivity |].
    destruct (slowing_below_range c Hc). split; lra.
  - assert (Py.ltb 50 cur = false) as -> by (apply ltb_ge; exact Hcur).
    assert (Py.ltb c 0 = false) as -> by (apply ltb_ge; exact Hc).
    do 3 (split; [reflexivity |]).
    apply (round1_range (-50) 0); [reflexivity | reflexivity |].
    destruct (growing_below_range c Hc). split; lra.
Qed.

(** X3.  The four standard scenarios and the ranges of their scores, as
    the comments of the source give them: above 50 and growing scores in
    [5, 8], above 50 and slowing in [0, 5], below 50 and slowing in
    [-8, -5], below 50 and growing in [-5, 0]; the bias is Short above 50
    and Long at or below it.  Rounding to one decimal keeps the ranges. *)
Theorem standard_scenario_ranges (cur c : Q) :
  (50 < cur -> 0 < c ->
   scenario (standard cur c) = "Above 50 and growing"%string /\
   bias (standard cur c) = "Short Bias"%string /\
   phase (standard cur c) = "Initiation"%string /\
   5 <= score (standard cur c) /\ score (standard cur c) <= 8) /\
  (50 < cur -> c <= 0 ->
   scenario (standard cur c) = "Above 50 and slowing"%string /\
   bias (standard cur c) = "Short Bias"%string /\
   phase (standard cur c) = "Initiation"%string /\
   0 <= score (standard cur c) /\ score (standard cur c) <= 5) /\
  (cur <= 50 -> c < 0 ->
   scenario (standard cur c) = "Below 50 and slowing"%string /\
   bias (standard cur c) = "Long Bias"%string /\
   phase (standard cur c) = "Definition"%string /\
   -8 <= score (standard cur c) /\ score (standard cur c) <= -5) /\
  (cur <= 50 -> 0 <= c ->
   scenario (standard cur c) = "Below 50 and growing"%string /\
   bias (standard cur c) = "Long Bias"%string /\
   phase (standard cur c) = "Definition"%string /\
   -5 <= score (standard cur c) /\ score (standard cur c) <= 0).
Proof. exact (standard_cases cur c). Qed.

Lemma standard_scenario_ranges_witness :
  scenario (standard 53.5 1.5) = "Above 50 and growing"%string /\
  5 <= score (standard 53.5 1.5) /\ score (standard 53.5 1.5) <= 8.
Proof.
  destruct (standard_scenario_ranges 53.5 1.5) as (H & _).
  destruct H as (Hs & _ & _ & Hlo & Hhi).
  - unfold Qlt; simpl; lia.
  - unfold Qlt; simpl; lia.
  - split; [exact Hs | split; [exact Hlo | exact Hhi]].
Defined.

Lemma standard_bounded (cur c : Q) :
  -8 <= score (standard cur c) /\ score (standard cur c) <= 8.
Proof.
  destruct (standard_cases cur c) as (H1 & H2 & H3 & H4).
  destruct (Qlt_le_dec 50 cur) as [Hcur | Hcur].
  - destruct (Qlt_le_dec 0 c) as [Hc | Hc].
    + destruct (H1 Hcur Hc) as (_ & _ & _ & A & B). split; lra.
    + destruct (H2 Hcur Hc) as (_ & _ & _ & A & B). split; lra.
  - destruct (Qlt_le_dec c 0) as [Hc | Hc].
    + destruct (H3 Hcur Hc) as (_ & _ & _ & A & B). split; lra.
    + destruct (H4 Hcur Hc) as (_ & _ & _ & A & B). split; lra.
Qed.

(** Which of the three paths a pair of readings takes. *)
Lemma side_cases (prev cur : Q) :
  (50 < prev /\ cur <= 50) \/ (prev < 50 /\ 50 <= cur) \/
  same_side (Some prev) cur.
Proof.
  unfold same_side.
  destruct (Qlt_le_dec 50 prev) as [Hp | Hp].
  - destruct (Qlt_le_dec 50 cur) as [Hc | Hc]; [right; right; left | left]; auto.
  - destruct (Qlt_le_dec prev 50) as [Hp' | Hp'].
    + destruct (Qlt_le_dec cur 50) as [Hc | Hc];
        [right; right; right; left | right; left]; auto.
    + right. right. right. right. apply Qle_antisym; assumption.
Qed.

Lemma ism_derived_bounded (prev cur : Q) :
  let info :=
    match ISM.transition (Some prev) cur (cur - prev) with
    | Some info => info
    | None => standard cur (cur - prev)
    end in
  -10 <= score info /\ score info <= 10.
Proof.
  destruct (side_cases prev cur) as [[Hp Hc] | [[Hp Hc] | Hs]].
  - rewrite (ism_trough _ _ _ Hp Hc). unfold pack. cbn [score].
    match goal with
    | |- context [Py.round1 ?x] =>
        destruct (round1_range 80 100 x 8 10) as [A B];
          [reflexivity | reflexivity | | split; lra]
    end.
    destruct (trough_range (cur - prev)). split; lra.
  - rewrite (ism_peak _ _ _ Hp Hc). unfold pack. cbn [score].
    match goal with
    | |- context [Py.round1 ?x] =>
        destruct (round1_range (-100) (-80) x (-10) (-8)) as [A B];
          [reflexivity | reflexivity | | split; lra]
    end.
    destruct (peak_range (cur - prev)); [lra |]. split; lra.
  - rewrite (ism_no_transition _ _ _ Hs). cbv zeta.
    destruct (standard_bounded cur (cur - prev)). split; lra.
Qed.

Lemma nmi_derived_bounded (prev cur : Q) :
  let info :=
    match NMI.transition (Some prev) cur (cur - prev) with
    | Some info => info
    | None => standard cur (cur - prev)
    end in
  -10 <= score info /\ score info <= 10.
Proof.
  destruct (side_cases prev cur) as [[Hp Hc] | [[Hp Hc] | Hs]].
  - rewrite (nmi_trough _ _ _ Hp Hc). unfold pack. cbn [score].
    match goal with
    | |- context [Py.round1 ?x] =>
        destruct (round1_range (-100) (-80) x (-10) (-8)) as [A B];
          [reflexivity | reflexivity | | split; lra]
    end.
    destruct (trough_range (cur - prev)). split; lra.
  - rewrite (nmi_peak _ _ _ Hp Hc). unfold pack. cbn [score].
    match goal with
    | |- context [Py.round1 ?x] =>
        destruct (round1_range 80 100 x 8 10) as [A B];
          [reflexivity | reflexivity | | split; lra]
    end.
    destruct (peak_range (cur - prev)); [lra |]. split; lra.
  - rewrite (nmi_no_transition _ _ _ Hs). cbv zeta.
    destruct (standard_bounded cur (cur - prev)). split; lra.
Qed.

(** X4.  A point appended to an ISM or NMI series without a change of its
    own is unscored only when the series was empty; otherwise its score,
    computed from the derived change, lies between -10 and 10.  The bound
    needs the derived change: with the explicit change -100 the ISM peak
    branch returns 42. *)
Theorem derived_change_score_within_ten (s : Data) (d : Py.datetime)
    (v : Q) :
  (exists p,
      data_points (ISM.add_data_point s d v None) = data_points s ++ [p] /\
      match score_info p with
      | Some info => -10 <= score info /\ score info <= 10
      | None => data_points s = []
      end) /\
  (exists p,
      data_points (NMI.add_data_point s d v None) = data_points s ++ [p] /\
      match score_info p with
      | Some info => -10 <= score info /\ score info <= 10
      | None => data_points s = []
      end) /\
  (exists info,
      fst (ISM.calculate_score (init d 51 (Some (-100))) (Some 48)) =
        Some info /\
      score info == 42).
Proof.
  split; [| split].
  - unfold ISM.add_data_point, Diffusion.add_data_point.
    eexists. split; [reflexivity |].
    destruct (last (data_points s)) as [q |] eqn:E.
    + unfold ISM.calculate_score. simpl. apply ism_derived_bounded.
    + simpl. apply last_None, E.
  - unfold NMI.add_data_point, Diffusion.add_data_point.
    eexists. split; [reflexivity |].
    destruct (last (data_points s)) as [q |] eqn:E.
    + unfold NMI.calculate_score. simpl. apply nmi_derived_bounded.
    + simpl. apply last_None, E.
  - eexists. split; [vm_compute; reflexivity | vm_compute; reflexivity].
Qed.

(** X5.  For every point and previous reading ISM and NMI either both
    return nothing (no change) or return records with the same bias and
    the same phase; the two records are equal when no transition applies,
    and carry opposite scores when one does. *)
Theorem ism_nmi_equal_or_opposite (p : DataPoint) (prev : option Q) :
  match fst (ISM.calculate_score p prev), fst (NMI.calculate_score p prev) with
  | Some i, Some n =>
      bias i = bias n /\ phase i = phase n /\
      ((same_side prev (value p) /\ i = n) \/
       (~ same_side prev (value p) /\ score n == - score i))
  | None, None => change p = None
  | _, _ => False
  end.
Proof.
  unfold ISM.calculate_score, NMI.calculate_score.
  destruct (change p) as [c |]; [| reflexivity]. cbn [fst].
  destruct prev as [q |].
  - destruct (side_cases q (value p)) as [[Hp Hc] | [[Hp Hc] | Hs]].
    + rewrite (ism_trough _ _ c Hp Hc), (nmi_trough _ _ c Hp Hc).
      split; [reflexivity |]. split; [reflexivity |]. right. split.
      * unfold same_side. intros [[_ H] | [[H _] | H]]; lra.
      * unfold pack. cbn [score]. rewrite <- round1_opp. apply round1_comp. ring.
    + rewrite (ism_peak _ _ c Hp Hc), (nmi_peak _ _ c Hp Hc).
      split; [reflexivity |]. split; [reflexivity |]. right. split.
      * unfold same_side. intros [[H _] | [[_ H] | H]]; lra.
      * unfold pack. cbn [score]. rewrite <- round1_opp. apply round1_comp. ring.
    + rewrite (ism_no_transition _ _ c Hs), (nmi_no_transition _ _ c Hs).
      split; [reflexivity |]. split; [reflexivity |]. left. split; [exact Hs | reflexivity].
  - cbn [ISM.transition NMI.transition].
    split; [reflexivity |]. split; [reflexivity |]. left. split; [exact I | reflexivity].
Qed.

(** What one append without a change of its own does. *)
Lemma add_without_change
    (calc : DataPoint -> option Q -> option ScoreInfo * DataPoint)
    (Hcalc : forall p prev,
        match change p with
        | None => calc p prev = (None, p)
        | Some _ => exists info, calc p prev = (Some info, set_score_info p info)
        end)
    (s : Data) (d : Py.datetime) (v : Q) :
  exists p,
    data_points (Diffusion.add_data_point calc s d v None) =
      data_points s ++ [p] /\
    date p = d /\ value p = v /\
    match last (data_points s) with
    | None => change p = None /\ score_info p = None
    | Some q => change p = Some (v - value q) /\ is_Some (score_info p)
    end.
Proof.
  unfold Diffusion.add_data_point. eexists. split; [reflexivity |].
  destruct (last (data_points s)) as [q |].
  - specialize (Hcalc (init d v (Some (v - value q))) (value <$> Some q)).
    cbn [change init] in Hcalc. destruct Hcalc as [info ->].
    cbn. repeat split; eauto.
  - specialize (Hcalc (init d v None) (value <$> None)).
    cbn [change init] in Hcalc. rewrite Hcalc. cbn. repeat split.
Qed.

Lemma feed_snoc
    (calc : DataPoint -> option Q -> option ScoreInfo * DataPoint)
    (s : Data) (rows : list (Py.datetime * Q * option Q))
    (r : Py.datetime * Q * option Q) :
  Diffusion.feed calc s (rows ++ [r]) =
  Diffusion.add_data_point calc (Diffusion.feed calc s rows)
    (fst (fst r)) (snd (fst r)) (snd r).
Proof. unfold Diffusion.feed. rewrite fold_left_app. reflexivity. Qed.

Lemma feed_series
    (calc : DataPoint -> option Q -> option ScoreInfo * DataPoint)
    (Hcalc : forall p prev,
        match change p with
        | None => calc p prev = (None, p)
        | Some _ => exists info, calc p prev = (Some info, set_score_info p info)
        end)
    (rows : list (Py.datetime * Q)) :
  series_of_differences rows
    (data_points (Diffusion.feed calc empty (without_change rows))).
Proof.
  induction rows as [| [d v] rows IH] using rev_ind.
  - repeat split; cbn; intros; discriminate.
  - unfold without_change in *. rewrite fmap_app. cbn [fmap list_fmap].
    rewrite feed_snoc. cbn [fst snd].
    set (s := Diffusion.feed calc empty ((fun r => (fst r, snd r, None)) <$> rows)) in *.
    destruct (add_without_change calc Hcalc s d v) as (p & -> & Hd & Hv & Hlast).
    destruct IH as (IHd & IHv & IH0 & IHs).
    split; [| split; [| split]].
    + rewrite !fmap_app, IHd. cbn. rewrite Hd. reflexivity.
    + rewrite !fmap_app, IHv. cbn. rewrite Hv. reflexivity.
    + intros p0 H0. destruct (data_points s) as [| x l] eqn:E.
      * cbn in H0. injection H0 as <-. cbn in Hlast. exact Hlast.
      * apply IH0. exact H0.
    + intros i q p' Hq Hp'.
      destruct (decide (S i < length (data_points s))%nat) as [Hlt | Hge].
      * rewrite lookup_app_l in Hq by lia. rewrite lookup_app_l in Hp' by lia.
        eapply IHs; eassumption.
      * assert (S i = length (data_points s)) as Hi.
        { apply lookup_lt_Some in Hp'. rewrite length_app in Hp'. cbn in Hp'. lia. }
        rewrite lookup_app_l in Hq by lia.
        rewrite lookup_app_r in Hp' by lia.
        replace (S i - length (data_points s))%nat with 0%nat in Hp' by lia.
        cbn in Hp'. injection Hp' as <-.
        assert (last (data_points s) = Some q) as Hl.
        { rewrite last_lookup. rewrite <- Hi. exact Hq. }
        rewrite Hl in Hlast. rewrite Hv. exact Hlast.
Qed.

(** X6.  A whole ISM or NMI series loaded from rows without a change
    column keeps the dates and readings of the rows in order; its first
    point has no change and no score, and every later point has the
    difference to its predecessor as change and is scored. *)
Theorem loaded_series_changes_and_scores (rows : list (Py.datetime * Q)) :
  series_of_differences rows
    (data_points (ISM.feed empty (without_change rows))) /\
  series_of_differences rows
    (data_points (NMI.feed empty (without_change rows))).
Proof.
  split.
  - apply (feed_series ISM.calculate_score). apply ism_calc_shape.
  - apply (feed_series NMI.calculate_score). apply nmi_calc_shape.
Qed.

End DiffusionMore.

(** ** Reading a series back *)

Section Accessors.

Local Open Scope Q_scope.

(** [xs[-n:]]: the last [n] elements for a positive [n], and the list
    without its first [|n|] elements otherwise (all of it for [n = 0]). *)
Lemma slice_last_pos {A : Type} (n : Z) (xs : list A) :
  (0 < n)%Z -> Py.slice_from (- n) xs = drop (length xs - Z.to_nat n) xs.
Proof.
  intros Hn. unfold Py.slice_from.
  assert ((- n <? 0)%Z = true) as -> by (apply Z.ltb_lt; lia).
  f_equal. lia.
Qed.

Lemma slice_last_nonpos {A : Type} (n : Z) (xs : list A) :
  (n <= 0)%Z -> Py.slice_from (- n) xs = drop (Z.to_nat (- n)) xs.
Proof.
  intros Hn. unfold Py.slice_from.
  assert ((- n <? 0)%Z = false) as -> by (apply Z.ltb_ge; lia).
  destruct (Z.le_gt_cases (- n) (Z.of_nat (length xs))) as [H | H].
  - rewrite Z.min_l by lia. reflexivity.
  - rewrite Z.min_r by lia. rewrite Nat2Z.id.
    rewrite !drop_ge by lia. reflexivity.
Qed.

(** X7.  [get_last_n_months(n)] of an ISM, NMI or UMCSI series: for a
    positive [n] it is the last [n] records of [get_all_data] (all of them
    when there are fewer), but [n = 0] returns every record rather than
    none, and a negative [n] returns all records but the first [|n|]. *)
Theorem last_n_months_slices (s : Diffusion.Data) (u : UMCSI.UMCSIData)
    (n : Z) :
  Diffusion.get_last_n_months s 0 = Diffusion.get_all_data s /\
  UMCSI.get_last_n_months u 0 = UMCSI.get_all_data u /\
  ((0 < n)%Z ->
   Diffusion.get_last_n_months s n =
     drop (length (Diffusion.get_all_data s) - Z.to_nat n)
          (Diffusion.get_all_data s) /\
   length (Diffusion.get_last_n_months s n) =
     Nat.min (Z.to_nat n) (length (Diffusion.data_points s)) /\
   UMCSI.get_last_n_months u n =
     drop (length (UMCSI.get_all_data u) - Z.to_nat n) (UMCSI.get_all_data u) /\
   length (UMCSI.get_last_n_months u n) =
     Nat.min (Z.to_nat n) (length (UMCSI.data_points u))) /\
  ((n < 0)%Z ->
   Diffusion.get_last_n_months s n =
     drop (Z.to_nat (- n)) (Diffusion.get_all_data s) /\
   UMCSI.get_last_n_months u n =
     drop (Z.to_nat (- n)) (UMCSI.get_all_data u)).
Proof.
  unfold Diffusion.get_last_n_months, Diffusion.get_all_data,
    UMCSI.get_last_n_months, UMCSI.get_all_data.
  split; [| split; [| split]].
  - rewrite (slice_last_nonpos 0) by lia. reflexivity.
  - rewrite (slice_last_nonpos 0) by lia. reflexivity.
  - intros Hn. rewrite !slice_last_pos by exact Hn.
    rewrite !fmap_drop, !length_fmap, !length_drop, !length_fmap.
    split; [reflexivity |]. split; [lia |]. split; [reflexivity | lia].
  - intros Hn. rewrite !slice_last_nonpos by lia.
    rewrite !fmap_drop. split; reflexivity.
Qed.

Lemma last_n_months_slices_witness :
  length (Diffusion.get_last_n_months
            (ISM.feed Diffusion.empty
               (without_change [(Py.Datetime 2023 1 1, 52.0);
                                (Py.Datetime 2023 2 1, 53.5);
                                (Py.Datetime 2023 3 1, 49.0)])) 2) = 2%nat /\
  length (Diffusion.get_last_n_months
            (ISM.feed Diffusion.empty
               (without_change [(Py.Datetime 2023 1 1, 52.0);
                                (Py.Datetime 2023 2 1, 53.5);
                                (Py.Datetime 2023 3 1, 49.0)])) (-1)) = 2%nat.
Proof.
  split.
  - destruct (last_n_months_slices
                (ISM.feed Diffusion.empty
                   (without_change [(Py.Datetime 2023 1 1, 52.0);
                                    (Py.Datetime 2023 2 1, 53.5);
                                    (Py.Datetime 2023 3 1, 49.0)]))
                UMCSI.empty 2) as (_ & _ & H & _).
    destruct H as (_ & Hlen & _); [lia |]. rewrite Hlen. reflexivity.
  - destruct (last_n_months_slices
                (ISM.feed Diffusion.empty
                   (without_change [(Py.Datetime 2023 1 1, 52.0);
                                    (Py.Datetime 2023 2 1, 53.5);
                                    (Py.Datetime 2023 3 1, 49.0)]))
                UMCSI.empty (-1)) as (_ & _ & _ & H).
    destruct H as (Hd & _); [lia |]. rewrite Hd. reflexivity.
Defined.

Lemma ism_score_keeps_date (p : Diffusion.DataPoint) (prev : option Q) :
  Diffusion.date (snd (ISM.calculate_score p prev)) = Diffusion.date p.
Proof.
  unfold ISM.calculate_score. destruct (Diffusion.change p); reflexivity.
Qed.

Lemma nmi_score_keeps_date (p : Diffusion.DataPoint) (prev : option Q) :
  Diffusion.date (snd (NMI.calculate_score p prev)) = Diffusion.date p.
Proof.
  unfold NMI.calculate_score. destruct (Diffusion.change p); reflexivity.
Qed.

Lemma slice_last_one {A : Type} (xs : list A) (x : A) :
  Py.slice_from (Z.opp 1) (xs ++ [x]) = [x].
Proof.
  rewrite slice_last_pos by lia. rewrite length_app. cbn [length].
  replace (length xs + 1 - Z.to_nat 1)%nat with (length xs) by lia.
  apply drop_app_length.
Qed.

(** X8.  [get_current_score] of a new ISM, NMI or UMCSI accumulator is
    nothing; after any append it is the record of the point just appended,
    which is also the single record of [get_last_n_months(1)] and the last
    one of [get_all_data], and it carries the date and reading given. *)
Theorem current_score_is_last_append (d : Py.datetime) (v : Q)
    (c : option Q) :
  Diffusion.get_current_score Diffusion.empty = None /\
  UMCSI.get_current_score UMCSI.empty = None /\
  (forall s, exists r,
      Diffusion.get_current_score (ISM.add_data_point s d v c) = Some r /\
      Diffusion.get_last_n_months (ISM.add_data_point s d v c) 1 = [r] /\
      Diffusion.get_all_data (ISM.add_data_point s d v c) =
        Diffusion.get_all_data s ++ [r] /\
      Diffusion.d_date r = Py.strftime_Ymd d /\ Diffusion.d_value r = v) /\
  (forall s, exists r,
      Diffusion.get_current_score (NMI.add_data_point s d v c) = Some r /\
      Diffusion.get_last_n_months (NMI.add_data_point s d v c) 1 = [r] /\
      Diffusion.get_all_data (NMI.add_data_point s d v c) =
        Diffusion.get_all_data s ++ [r] /\
      Diffusion.d_date r = Py.strftime_Ymd d /\ Diffusion.d_value r = v) /\
  (forall s, exists r,
      UMCSI.get_current_score (UMCSI.add_data_point s d v c) = Some r /\
      UMCSI.get_last_n_months (UMCSI.add_data_point s d v c) 1 = [r] /\
      UMCSI.get_all_data (UMCSI.add_data_point s d v c) =
        UMCSI.get_all_data s ++ [r] /\
      UMCSI.d_date r = Py.strftime_Ymd d /\ UMCSI.d_value r = v).
Proof.
  split; [reflexivity |]. split; [reflexivity |]. split; [| split].
  - intros s. eexists.
    unfold Diffusion.get_current_score, Diffusion.get_last_n_months,
      Diffusion.get_all_data, ISM.add_data_point, Diffusion.add_data_point.
    cbn [Diffusion.data_points].
    rewrite last_snoc, slice_last_one, fmap_app.
    split; [reflexivity |]. split; [reflexivity |]. split; [reflexivity |].
    unfold Diffusion.to_dict. cbn [Diffusion.d_date Diffusion.d_value].
    rewrite ism_score_keeps_date.
    rewrite (proj1 (ism_score_keeps_inputs _ _)). split; reflexivity.
  - intros s. eexists.
    unfold Diffusion.get_current_score, Diffusion.get_last_n_months,
      Diffusion.get_all_data, NMI.add_data_point, Diffusion.add_data_point.
    cbn [Diffusion.data_points].
    rewrite last_snoc, slice_last_one, fmap_app.
    split; [reflexivity |]. split; [reflexivity |]. split; [reflexivity |].
    unfold Diffusion.to_dict. cbn [Diffusion.d_date Diffusion.d_value].
    rewrite nmi_score_keeps_date.
    rewrite (proj1 (nmi_score_keeps_inputs _ _)). split; reflexivity.
  - intros s. eexists.
    unfold UMCSI.get_current_score, UMCSI.get_last_n_months,
      UMCSI.get_all_data, UMCSI.add_data_point.
    cbn [UMCSI.data_points].
    rewrite last_snoc, slice_last_one, fmap_app.
    split; [reflexivity |]. split; [reflexivity |]. split; [reflexivity |].
    split; reflexivity.
Qed.

End Accessors.

(** ** Band lookup: between and beyond the integers *)

Section BandMore.

Local Open Scope Q_scope.

Lemma score_of_rounded (v : Q) (k : Z) :
  (55 <= k <= 105)%Z -> Py.round v = k ->
  UMCSI.score_map !! k = Some (UMCSI.score_of v).
Proof.
  intros Hk Hr. unfold UMCSI.score_of. rewrite Hr, (clamp_inside k Hk).
  destruct (score_map_dense k Hk) as [s ->]. reflexivity.
Qed.

Lemma score_map_values :
  map_Forall (fun _ s => (-10 <= s <= 10)%Z) UMCSI.score_map.
Proof. apply (bool_decide_unpack _). vm_compute. exact I. Qed.

(** X9.  The UMCSI score is constant around each integer of the table: a
    reading nearer than one half to an integer [k] of [55, 105] gets the
    table entry of [k]. *)
Theorem umcsi_constant_near_integer (v : Q) (k : Z) :
  (55 <= k <= 105)%Z -> Qabs (v - inject_Z k) < 1 # 2 ->
  UMCSI.score_map !! k = Some (UMCSI.score_of v).
Proof.
  intros Hk Hv. apply score_of_rounded; [exact Hk | apply round_near, Hv].
Qed.

Lemma umcsi_constant_near_integer_witness :
  UMCSI.score_map !! 63%Z = Some (UMCSI.score_of 62.6) /\
  UMCSI.score_of 62.6 = (-10)%Z.
Proof.
  pose proof (umcsi_constant_near_integer 62.6 63) as H.
  split.
  - apply H; [lia | vm_compute; reflexivity].
  - vm_compute. reflexivity.
Defined.

(** X10.  Whatever the reading, the UMCSI score lies between -10 and 10. *)
Theorem umcsi_score_within_ten (v : Q) :
  (-10 <= UMCSI.score_of v <= 10)%Z.
Proof.
  destruct (score_map_dense _ (clamp_range (Py.round v))) as [s Hs].
  unfold UMCSI.score_of. rewrite Hs. cbn [default].
  exact (score_map_values _ _ Hs).
Qed.

(** X11.  A reading exactly half-way between two integers of the table
    takes the entry of the even one (Python rounds ties to even), not of
    the upper one: 62.5 scores 5 like 62, not -10 like 63, while 63.5
    scores like 64. *)
Theorem umcsi_half_way_goes_to_even (k : Z) :
  (55 <= k < 105)%Z ->
  UMCSI.score_map !! (if Z.even k then k else (k + 1)%Z) =
    Some (UMCSI.score_of (inject_Z k + (1 # 2))).
Proof.
  intros Hk. apply score_of_rounded; [| apply round_half].
  destruct (Z.even k); lia.
Qed.

Lemma umcsi_half_way_goes_to_even_witness :
  UMCSI.score_of 62.5 = 5%Z /\ UMCSI.score_of 63.5 = (-9)%Z.
Proof.
  pose proof (umcsi_half_way_goes_to_even 62) as H62.
  pose proof (umcsi_half_way_goes_to_even 63) as H63.
  split.
  - assert (UMCSI.score_map !! 62%Z =
            Some (UMCSI.score_of (inject_Z 62 + (1 # 2)))) as H
      by (apply H62; lia).
    vm_compute in H. vm_compute. congruence.
  - assert (UMCSI.score_map !! 64%Z =
            Some (UMCSI.score_of (inject_Z 63 + (1 # 2)))) as H
      by (apply H63; lia).
    vm_compute in H. vm_compute. congruence.
Defined.

End BandMore.

(** ** Nearest-threshold lookup: the CPI table, basins and ties *)

Section ThresholdMore.

Local Open Scope Q_scope.

(** The list scorer of the CPI file: the pair chosen by [min] is the first
    nearest entry of the table. *)
Lemma list_lookup_nearest (table : list (Q * Z)) (v : Q) :
  table <> [] ->
  exists k s,
    nearest_entry (fun q => q) table v k s /\
    CPIUCSL.closest_score table v = Some s.
Proof.
  intros Hne.
  destruct (min_by_first_min (fun x : Q * Z => Qabs (fst x - v)) table Hne)
    as ([k s] & Hmin & Hfirst).
  exists k, s. split; [exact Hfirst |].
  unfold CPIUCSL.closest_score. rewrite Hmin. reflexivity.
Qed.

Lemma nearest_entry_in {K : Type} (num : K -> Q) (table : list (K * Z))
    (v : Q) (k : K) (s : Z) :
  nearest_entry num table v k s -> In (k, s) table.
Proof.
  intros (pre & post & -> & _). apply in_or_app. right. left. reflexivity.
Qed.

Lemma nearest_entry_le {K : Type} (num : K -> Q) (table : list (K * Z))
    (v : Q) (k k' : K) (s s' : Z) :
  nearest_entry num table v k s -> In (k', s') table ->
  Qabs (num k - v) <= Qabs (num k' - v).
Proof.
  intros Hn Hin.
  exact (first_min_le (fun kv => Qabs (num (fst kv) - v)) table (k, s) (k', s')
                      Hn Hin).
Qed.

Lemma Qabs_ge_cases (x a : Q) : a <= Qabs x -> a <= x \/ x <= - a.
Proof.
  apply (Qabs_case x (fun y => a <= y -> a <= x \/ x <= - a)); intros H H'.
  - left. exact H'.
  - right. lra.
Qed.

Lemma Qabs_lt_cases (x a : Q) : Qabs x < a -> - a < x /\ x < a.
Proof. apply Qabs_Qlt_condition. Qed.

Lemma cpi_table_top :
  Forall (fun kv : Q * Z => fst kv <= 1.4 /\ (fst kv == 1.4 -> snd kv = 3%Z))
         CPIUCSL.score_table.
Proof.
  unfold CPIUCSL.score_table.
  repeat constructor; unfold Qle, Qeq; simpl; lia.
Qed.

Lemma cpi_table_bottom :
  Forall (fun kv : Q * Z => -0.7 <= fst kv /\ (fst kv == -0.7 -> snd kv = 10%Z))
         CPIUCSL.score_table.
Proof.
  unfold CPIUCSL.score_table.
  repeat constructor; unfold Qle, Qeq; simpl; lia.
Qed.

Lemma cpi_table_near_zero :
  Forall (fun kv : Q * Z => snd kv = 0%Z \/ 0.1 <= fst kv \/ fst kv <= -0.1)
         CPIUCSL.score_table.
Proof.
  unfold CPIUCSL.score_table.
  repeat (constructor;
          [first [ left; reflexivity
                 | right; left; unfold Qle; simpl; lia
                 | right; right; unfold Qle; simpl; lia ] |]).
  constructor.
Qed.

(** The CPI method beyond its zero guard. *)
Lemma cpi_beyond_guard (p : CPIUCSL.CPIDataPoint) (v : Q) :
  0.01 <= Qabs v ->
  CPIUCSL.calculate_score p v =
  match CPIUCSL.closest_score CPIUCSL.score_table v with
  | Some s =>
      Some (s, CPIUCSL.mkPoint (CPIUCSL.date p) (CPIUCSL.cpi_change p) (Some s))
  | None => None
  end.
Proof.
  intros Hv. unfold CPIUCSL.calculate_score, CPIUCSL.calculate_score_with.
  assert (Py.ltb (Qabs v) 0.01 = false) as -> by (apply ltb_ge; exact Hv).
  destruct (CPIUCSL.closest_score CPIUCSL.score_table v); reflexivity.
Qed.

(** X13.  On the table of the source the zero guard changes no result: for
    [|v| < 0.01] the nearest-threshold step alone also gives 0, so for
    every [v] the method returns what the table lookup gives. *)
Theorem cpi_guard_agrees_with_table (p : CPIUCSL.CPIDataPoint) (v : Q) :
  (Qabs v < 0.01 -> CPIUCSL.closest_score CPIUCSL.score_table v = Some 0%Z) /\
  fst <$> CPIUCSL.calculate_score p v =
    CPIUCSL.closest_score CPIUCSL.score_table v.
Proof.
  assert (Qabs v < 0.01 ->
          CPIUCSL.closest_score CPIUCSL.score_table v = Some 0%Z) as Hzero.
  { intros Hv.
    destruct (list_lookup_nearest CPIUCSL.score_table v) as (k & s & Hn & ->);
      [discriminate |].
    f_equal.
    pose proof (nearest_entry_in _ _ _ _ _ Hn) as Hin.
    pose proof cpi_table_near_zero as Hall. rewrite Forall_forall in Hall.
    assert (In (0.0, 0%Z) CPIUCSL.score_table) as H0
      by (do 7 right; left; reflexivity).
    pose proof (nearest_entry_le _ _ _ _ _ _ _ Hn H0) as Hd. cbv beta in Hd.
    apply Qabs_lt_cases in Hv.
    assert (Qabs (k - v) < 0.01) as Hk.
    { eapply Qle_lt_trans; [exact Hd |]. apply Qabs_Qlt_condition. lra. }
    apply Qabs_lt_cases in Hk.
    destruct (Hall (k, s)) as [Hs | [Hs | Hs]];
      [apply list_elem_of_In, Hin | exact Hs | cbn in Hs; lra | cbn in Hs; lra]. }
  split; [exact Hzero |].
  destruct (Qlt_le_dec (Qabs v) 0.01) as [Hv | Hv].
  - rewrite (Hzero Hv). unfold CPIUCSL.calculate_score, CPIUCSL.calculate_score_with.
    apply ltb_lt in Hv. rewrite Hv. reflexivity.
  - rewrite (cpi_beyond_guard p v Hv).
    destruct (CPIUCSL.closest_score CPIUCSL.score_table v); reflexivity.
Qed.

Lemma cpi_guard_agrees_with_table_witness :
  CPIUCSL.closest_score CPIUCSL.score_table 0.005 = Some 0%Z.
Proof.
  destruct (cpi_guard_agrees_with_table
              (CPIUCSL.init (Py.Datetime 2023 1 1) 0.2) 0.005) as (H & _).
  apply H. unfold Qlt; simpl; lia.
Defined.

(** A table without repeated keys gives one score per key. *)
Lemma nodup_keys_functional (table : list (Z * Z)) :
  NoDup (map fst table) ->
  forall k s s', In (k, s) table -> In (k, s') table -> s = s'.
Proof.
  induction table as [| [k0 s0] table IH]; intros Hnd k s s' H1 H2.
  - destruct H1.
  - apply NoDup_cons in Hnd. destruct Hnd as [Hnotin Hnd].
    assert (forall x, In (k0, x) table -> False) as Hfresh.
    { intros x Hx. apply Hnotin. apply list_elem_of_In.
      apply in_map_iff. exists (k0, x). auto. }
    destruct H1 as [H1 | H1], H2 as [H2 | H2].
    + congruence.
    + injection H1 as <- <-. exfalso. eapply Hfresh, H2.
    + injection H2 as <- <-. exfalso. eapply Hfresh, H1.
    + eapply IH; eassumption.
Qed.

Lemma ir_keys_nodup : NoDup (map fst IR.score_table).
Proof. apply (bool_decide_unpack _). vm_compute. exact I. Qed.

Lemma permits_keys_nodup : NoDup (map fst PermitsSA.score_table).
Proof. apply (bool_decide_unpack _). vm_compute. exact I. Qed.

Lemma ir_keys_step : Forall (fun kv : Z * Z => (5 | fst kv)%Z) IR.score_table.
Proof.
  unfold IR.score_table.
  repeat (constructor; [cbn; apply Z.mod_divide; [lia | reflexivity] |]).
  constructor.
Qed.

Lemma permits_keys_step :
  Forall (fun kv : Z * Z => (100 | fst kv)%Z) PermitsSA.score_table.
Proof.
  unfold PermitsSA.score_table.
  repeat (constructor; [cbn; apply Z.mod_divide; [lia | reflexivity] |]).
  constructor.
Qed.

(** When all keys are multiples of [m], a reading nearer than [m/2] to a
    key resolves to that key. *)
Lemma dict_basin (table : list (Z * Z)) (m : Z) (v : Q) (k s : Z) :
  (0 < m)%Z ->
  Forall (fun kv : Z * Z => (m | fst kv)%Z) table ->
  NoDup (map fst table) ->
  In (k, s) table ->
  2 * Qabs (v - inject_Z k) < inject_Z m ->
  IR._calculate_score_with table v = Some s.
Proof.
  intros Hm Hstep Hnd Hin Hv.
  destruct (dict_lookup_nearest table v) as (k' & s' & Hn & ->).
  { intros ->. destruct Hin. }
  f_equal.
  pose proof (nearest_entry_in _ _ _ _ _ Hn) as Hin'.
  pose proof (nearest_entry_le _ _ _ _ _ _ _ Hn Hin) as Hd. cbv beta in Hd.
  rewrite (Qabs_Qminus (inject_Z k) v) in Hd.
  remember (Qabs (v - inject_Z k)) as a eqn:Ea.
  assert (Qabs (v - inject_Z k) <= a) as Ha by (rewrite Ea; apply Qle_refl).
  apply Qabs_Qle_condition in Ha. apply Qabs_Qle_condition in Hd.
  destruct Ha as [Ha1 Ha2]. destruct Hd as [Hd1 Hd2]. clear Ea.
  assert (inject_Z (k' - k) < inject_Z m) as H1.
  { unfold Z.sub. rewrite inject_Z_plus, inject_Z_opp. lra. }
  assert (inject_Z (k - k') < inject_Z m) as H2.
  { unfold Z.sub. rewrite inject_Z_plus, inject_Z_opp. lra. }
  rewrite <- Zlt_Qlt in H1, H2.
  rewrite Forall_forall in Hstep.
  destruct (Hstep (k, s)) as [x Hx]; [apply list_elem_of_In, Hin |].
  destruct (Hstep (k', s')) as [y Hy]; [apply list_elem_of_In, Hin' |].
  cbn in Hx, Hy. subst k k'.
  assert ((y - x) * m < 1 * m)%Z as B1 by lia.
  assert ((x - y) * m < 1 * m)%Z as B2 by lia.
  apply Z.mul_lt_mono_pos_r in B1, B2; try exact Hm.
  assert (y = x) as -> by lia.
  eapply nodup_keys_functional; eassumption.
Qed.

(** X14.  Near a key the dict scorers are constant: a permits reading
    nearer than 50 to a key of the table, and a rate nearer than 2.5 to a
    key of its table, get the score stored for that key (so a reading equal
    to a key gets that key's score). *)
Theorem dict_scores_constant_near_keys (v : Q) (k s : Z) :
  (In (k, s) PermitsSA.score_table -> Qabs (v - inject_Z k) < 50 ->
   PermitsSA._calculate_score v = Some s) /\
  (In (k, s) IR.score_table -> Qabs (v - inject_Z k) < 5 # 2 ->
   IR._calculate_score v = Some s).
Proof.
  split; intros Hin Hv.
  - unfold PermitsSA._calculate_score. rewrite permits_as_dict_scorer.
    apply (dict_basin _ 100 v k s);
      [lia | exact permits_keys_step | exact permits_keys_nodup | exact Hin |].
    change (inject_Z 100) with 100. lra.
  - unfold IR._calculate_score.
    apply (dict_basin _ 5 v k s);
      [lia | exact ir_keys_step | exact ir_keys_nodup | exact Hin |].
    change (inject_Z 5) with 5. lra.
Qed.

Lemma dict_scores_constant_near_keys_witness :
  PermitsSA._calculate_score 1849 = Some 10%Z /\
  IR._calculate_score 12.4 = Some (-6)%Z.
Proof.
  split.
  - destruct (dict_scores_constant_near_keys 1849 1800 10) as (H & _).
    apply H; [do 14 right; left; reflexivity | vm_compute; reflexivity].
  - destruct (dict_scores_constant_near_keys 12.4 10 (-6)) as (_ & H).
    apply H; [do 6 right; left; reflexivity | vm_compute; reflexivity].
Defined.

(** X15.  A reading exactly half-way between two neighbouring keys gets
    the score of the key listed first in the table: the lower key for
    permits, whose table ascends (1850 scores like 1800), and the higher
    key for rates, whose table descends (12.5 scores like 15). *)
Theorem midpoint_scores_like_first_listed (i : nat) (k1 s1 k2 s2 : Z) :
  (PermitsSA.score_table !! i = Some (k1, s1) ->
   PermitsSA.score_table !! S i = Some (k2, s2) ->
   PermitsSA._calculate_score ((inject_Z k1 + inject_Z k2) / 2) = Some s1 /\
   (k1 < k2)%Z) /\
  (IR.score_table !! i = Some (k1, s1) ->
   IR.score_table !! S i = Some (k2, s2) ->
   IR._calculate_score ((inject_Z k1 + inject_Z k2) / 2) = Some s1 /\
   (k2 < k1)%Z).
Proof.
  split; intros H1 H2.
  - unfold PermitsSA.score_table in H1, H2.
    do 20 (destruct i as [| i];
           [cbn in H1, H2; injection H1 as <- <-; injection H2 as <- <-;
            split; [vm_compute; reflexivity | lia] |]).
    cbn in H2. discriminate H2.
  - unfold IR.score_table in H1, H2.
    do 16 (destruct i as [| i];
           [cbn in H1, H2; injection H1 as <- <-; injection H2 as <- <-;
            split; [vm_compute; reflexivity | lia] |]).
    cbn in H2. discriminate H2.
Qed.

Lemma midpoint_scores_like_first_listed_witness :
  PermitsSA._calculate_score 1850 = Some 10%Z /\
  IR._calculate_score 12.5 = Some (-9)%Z.
Proof.
  split.
  - destruct (midpoint_scores_like_first_listed 14 1800 10 1900 (-7))
      as (H & _).
    destruct H as [H _]; [reflexivity | reflexivity |].
    vm_compute in H. vm_compute. exact H.
  - destruct (midpoint_scores_like_first_listed 5 15 (-9) 10 (-6))
      as (_ & H).
    destruct H as [H _]; [reflexivity | reflexivity |].
    vm_compute in H. vm_compute. exact H.
Defined.

End ThresholdMore.

(** ** Trend scorer: the bands actually reached, and the export *)

Section TrendMore.

Local Open Scope Q_scope.






Lemma last_two_split {A : Type} (l : list A) :
  (2 <= length l)%nat -> exists pre a b, l = pre ++ [a; b].
Proof.
  intros H. destruct l as [| b l _] using rev_ind; [cbn in H; lia |].
  destruct l as [| a l _] using rev_ind.
  - cbn in H. lia.
  - exists l, a, b. rewrite <- app_assoc. reflexivity.
Qed.

Lemma lookup_last_two {A : Type} (pre : list A) (a b x : A) :
  ((pre ++ [a; b]) ++ [x]) !! (length (pre ++ [a; b]) - 2)%nat = Some a /\
  ((pre ++ [a; b]) ++ [x]) !! (length (pre ++ [a; b]) - 1)%nat = Some b.
Proof.
  rewrite length_app. cbn [length]. split.
  - replace (length pre + 2 - 2)%nat with (length pre) by lia.
    rewrite <- app_assoc. apply list_lookup_middle. reflexivity.
  - replace (length pre + 2 - 1)%nat with (length (pre ++ [a]))
      by (rewrite length_app; cbn; lia).
    replace ((pre ++ [a; b]) ++ [x]) with ((pre ++ [a]) ++ b :: [x])
      by (rewrite <- !app_assoc; reflexivity).
    apply list_lookup_middle. reflexivity.
Qed.

Lemma m2_feed_snoc (s : M2.MonetaryData) (rows : list (Py.datetime * Q))
    (r : Py.datetime * Q) :
  M2.feed s (rows ++ [r]) = M2.add_data_point (M2.feed s rows) (fst r) (snd r).
Proof. unfold M2.feed. rewrite fold_left_app. reflexivity. Qed.

Lemma m2_series_extend (rows : list (Py.datetime * Q))
    (pts : list M2.MonetaryDataPoint) (d : Py.datetime) (v : Q) :
  m2_series rows pts ->
  m2_series (rows ++ [(d, v)])
            (pts ++ [M2.calculate_metrics (M2.init d v) pts]).
Proof.
  intros [Hval Hidx]. split.
  - rewrite !fmap_app, Hval. cbn. f_equal. f_equal.
    destruct (le_lt_dec 2 (length pts)) as [H | H].
    + rewrite metrics_long by exact H. reflexivity.
    + rewrite metrics_short by exact H. reflexivity.
  - intros i p Hp.
    destruct (decide (i < length pts)%nat) as [Hlt | Hge].
    + rewrite lookup_app_l in Hp by exact Hlt.
      specialize (Hidx i p Hp). destruct (i <? 2)%nat; [exact Hidx |].
      destruct Hidx as (Hs & a & b & avg & Ha & Hb & Havg).
      split; [exact Hs |]. exists a, b, avg.
      split; [apply lookup_app_l_Some, Ha |].
      split; [apply lookup_app_l_Some, Hb | exact Havg].
    + assert (i = length pts) as ->.
      { apply lookup_lt_Some in Hp. rewrite length_app in Hp. cbn in Hp. lia. }
      rewrite list_lookup_middle in Hp by reflexivity. injection Hp as <-.
      destruct (le_lt_dec 2 (length pts)) as [H | H].
      * assert ((length pts <? 2)%nat = false) as -> by (apply Nat.ltb_ge; exact H).
        rewrite metrics_long by exact H. cbn [M2.score M2.value M2.three_month_avg].
        split; [reflexivity |].
        destruct (last_two_split pts H) as (pre & a & b & ->).
        exists a, b. eexists.
        rewrite slice_last_two.
        split; [apply lookup_last_two |].
        split; [apply lookup_last_two |].
        split; [reflexivity |].
        unfold Py.sum. cbn. field.
      * assert ((length pts <? 2)%nat = true) as -> by (apply Nat.ltb_lt; exact H).
        rewrite metrics_short by exact H. split; reflexivity.
Qed.

(** X18.  A whole M2 series, fed row by row to a new accumulator, keeps
    the readings of the rows in order; its first two points have neither
    score nor average, and every later point has the band of its own
    reading as score and, as average, the mean of its reading and the two
    readings before it. *)
Theorem m2_loaded_series (rows : list (Py.datetime * Q)) :
  m2_series rows (M2.data_points (M2.feed M2.empty rows)).
Proof.
  induction rows as [| [d v] rows IH] using rev_ind.
  - split; [reflexivity |]. intros i p H. destruct i; discriminate H.
  - rewrite m2_feed_snoc, m2_add_unfold. cbn [fst snd].
    apply m2_series_extend, IH.
Qed.

End TrendMore.

(** ** Threshold scorers: the range of the scores *)

Section ThresholdRange.

Local Open Scope Q_scope.

Lemma ir_table_scores :
  Forall (fun kv : Z * Z => (-10 <= snd kv <= 7)%Z) IR.score_table.
Proof. unfold IR.score_table. repeat (constructor; [cbn; lia |]). constructor. Qed.

Lemma permits_table_scores :
  Forall (fun kv : Z * Z => (-10 <= snd kv <= 10)%Z) PermitsSA.score_table.
Proof.
  unfold PermitsSA.score_table. repeat (constructor; [cbn; lia |]). constructor.
Qed.

Lemma cpi_table_scores :
  Forall (fun kv : Q * Z => (-10 <= snd kv <= 10)%Z) CPIUCSL.score_table.
Proof.
  unfold CPIUCSL.score_table. repeat (constructor; [cbn; lia |]). constructor.
Qed.

(** X19.  Whatever the reading, the interest-rate score lies between -10
    and 7 and the permits score between -10 and 10, and every CPI record
    built from a row with a 12-month average has a score between -10 and
    10. *)
Theorem threshold_scores_within_ten (d : Py.datetime) (v c : Q) :
  (exists s, IR._calculate_score v = Some s /\ (-10 <= s <= 7)%Z) /\
  (exists s, PermitsSA._calculate_score v = Some s /\ (-10 <= s <= 10)%Z) /\
  (exists r s,
      CPIUCSL.process_row d c v = Some r /\
      CPIUCSL.d_score r = Some s /\ (-10 <= s <= 10)%Z /\
      CPIUCSL.d_cpi_change r = c).
Proof.
  split; [| split].
  - destruct (ir_lookup v) as (k & s & Hn & Hs). exists s. split; [exact Hs |].
    pose proof ir_table_scores as Hall. rewrite Forall_forall in Hall.
    apply (Hall (k, s)), list_elem_of_In, (nearest_entry_in _ _ _ _ _ Hn).
  - destruct (permits_lookup v) as (k & s & Hn & Hs). exists s. split; [exact Hs |].
    pose proof permits_table_scores as Hall. rewrite Forall_forall in Hall.
    apply (Hall (k, s)), list_elem_of_In, (nearest_entry_in _ _ _ _ _ Hn).
  - unfold CPIUCSL.process_row, CPIUCSL.calculate_score,
      CPIUCSL.calculate_score_with.
    destruct (Py.ltb (Qabs v) 0.01).
    + do 2 eexists. split; [reflexivity |]. split; [reflexivity |].
      split; [lia | reflexivity].
    + destruct (list_lookup_nearest CPIUCSL.score_table v)
        as (k & s & Hn & ->); [discriminate |].
      do 2 eexists. split; [reflexivity |]. split; [reflexivity |].
      split; [| reflexivity].
      pose proof cpi_table_scores as Hall. rewrite Forall_forall in Hall.
      apply (Hall (k, s)), list_elem_of_In, (nearest_entry_in _ _ _ _ _ Hn).
Qed.

End ThresholdRange.

(** ** The transition branches of the diffusion scorers *)

Section TransitionScores.

Import Diffusion.
Local Open Scope Q_scope.

(** Rounding to one decimal moves a value by at most half a tenth. *)
Lemma round1_close (x : Q) : Qabs (Py.round1 x - x) <= 1 # 20.
Proof.
  unfold Py.round1, Py.round_to. change (inject_Z 10) with 10.
  pose proof (round_nearest (x * 10)) as H.
  apply Qabs_Qle_condition in H. destruct H as [H1 H2].
  assert (10 * (inject_Z (Py.round (x * 10)) / 10) ==
          inject_Z (Py.round (x * 10))) as E by field.
  remember (inject_Z (Py.round (x * 10)) / 10) as y eqn:Ey. clear Ey.
  remember (inject_Z (Py.round (x * 10))) as r eqn:Er. clear Er.
  apply Qabs_Qle_condition. split; lra.
Qed.



Lemma round1_close_051 (x : Q) : Qabs (Py.round1 x - x) < 0.051.
Proof.
  eapply Qle_lt_trans; [apply round1_close |]. reflexivity.
Qed.

Lemma round1_opp_close_051 (x : Q) : Qabs (Py.round1 (- x) - - x) < 0.051.
Proof. apply round1_close_051. Qed.


(** Which tenth a raw score half way between two tenths goes to is decided
    by the double that holds it: for the change -0.1 the raw score is the
    double just above 8.05 and the code stores 8.1, where rounding the
    exact 8.05 gives 8; for -0.7 the double is just below 8.35 and the
    code stores 8.3, not 8.4.  Either way the score is within 0.051 of the
    formula. *)
Lemma trough_tenth_depends_on_the_double :
  F64.ism_trough_score (F64.fl (-0.1)) == F64.fl 8.1 /\
  Py.round1 (8 + Py.min 2 (Qabs (-0.1) / 2)) == 8 /\
  F64.ism_trough_score (F64.fl (-0.7)) == F64.fl 8.3 /\
  Py.round1 (8 + Py.min 2 (Qabs (-0.7) / 2)) == 8.4 /\
  Qabs (F64.ism_trough_score (F64.fl (-0.1)) -
        (8 + Py.min 2 (Qabs (-0.1) / 2))) < 0.051 /\
  Qabs (F64.ism_trough_score (F64.fl (-0.7)) -
        (8 + Py.min 2 (Qabs (-0.7) / 2))) < 0.051.
Proof.
  split; [vm_compute; reflexivity |]. split; [vm_compute; reflexivity |].
  split; [vm_compute; reflexivity |]. split; [vm_compute; reflexivity |].
  split; vm_compute; reflexivity.
Qed.





End TransitionScores.

(** ** Readings and changes that are not numbers *)

Section NonNumbers.

Local Open Scope Q_scope.

(** Unfold the operations on extended floats, leaving the rationals as
    they are, and split on the comparisons met. *)
Ltac ext_cases :=
  unfold Ext.pack, Diffusion.pack, Ext.of_info, Ext.sub, Ext.min, Ext.max,
    Py.min, Py.max;
  cbn [Ext.half Ext.abs Ext.neg Ext.add Ext.lt Ext.round1
       Diffusion.score Diffusion.bias Diffusion.phase Diffusion.scenario];
  repeat match goal with
  | |- context [Py.ltb ?a ?b] => destruct (Py.ltb a b)
  end;
  cbn [Ext.half Ext.abs Ext.neg Ext.add Ext.lt Ext.round1];
  try reflexivity.

Lemma ext_standard_finite (cur c : Q) :
  Ext.standard cur (Ext.Finite c) = Ext.of_info (Diffusion.standard cur c).
Proof.
  unfold Ext.standard, Diffusion.standard. cbn [Ext.lt].
  destruct (Py.ltb 50 cur); [destruct (Py.ltb 0 c) | destruct (Py.ltb c 0)];
    ext_cases.
Qed.

Lemma ext_ism_transition_finite (prev : option Q) (cur c : Q) :
  Ext.ism_transition prev cur (Ext.Finite c) =
  Ext.of_info <$> ISM.transition prev cur c.
Proof.
  unfold Ext.ism_transition, ISM.transition.
  destruct prev as [q |]; [| reflexivity].
  destruct (Py.ltb 50 q && Py.leb cur 50);
    [| destruct (Py.ltb q 50 && Py.leb 50 cur); [| reflexivity]];
    cbn [fmap option_fmap option_map]; f_equal; ext_cases.
Qed.

Lemma ext_nmi_transition_finite (prev : option Q) (cur c : Q) :
  Ext.nmi_transition prev cur (Ext.Finite c) =
  Ext.of_info <$> NMI.transition prev cur c.
Proof.
  unfold Ext.nmi_transition, NMI.transition.
  destruct prev as [q |]; [| reflexivity].
  destruct (Py.ltb 50 q && Py.leb cur 50);
    [| destruct (Py.ltb q 50 && Py.leb 50 cur); [| reflexivity]];
    cbn [fmap option_fmap option_map]; f_equal; ext_cases.
Qed.

(** On a change that is a number the scorers of [Ext] return what those of
    [ISM] and [NMI] return. *)
Lemma ext_ism_finite (p : Diffusion.DataPoint) (prev : option Q) :
  Ext.ism_calculate_score (Diffusion.value p)
    (Ext.Finite <$> Diffusion.change p) prev =
  Ext.of_info <$> fst (ISM.calculate_score p prev).
Proof.
  unfold Ext.ism_calculate_score, ISM.calculate_score.
  destruct (Diffusion.change p) as [c |]; [| reflexivity].
  cbn [fmap option_fmap option_map fst].
  rewrite ext_ism_transition_finite.
  destruct (ISM.transition prev (Diffusion.value p) c);
    cbn [fmap option_fmap option_map]; [reflexivity |].
  rewrite ext_standard_finite. reflexivity.
Qed.

Lemma ext_nmi_finite (p : Diffusion.DataPoint) (prev : option Q) :
  Ext.nmi_calculate_score (Diffusion.value p)
    (Ext.Finite <$> Diffusion.change p) prev =
  Ext.of_info <$> fst (NMI.calculate_score p prev).
Proof.
  unfold Ext.nmi_calculate_score, NMI.calculate_score.
  destruct (Diffusion.change p) as [c |]; [| reflexivity].
  cbn [fmap option_fmap option_map fst].
  rewrite ext_nmi_transition_finite.
  destruct (NMI.transition prev (Diffusion.value p) c);
    cbn [fmap option_fmap option_map]; [reflexivity |].
  rewrite ext_standard_finite. reflexivity.
Qed.

(** With a NaN change every comparison of the change fails and every
    [min] and [max] keeps its first argument. *)
Lemma ext_standard_nan (cur : Q) :
  exists s,
    Ext.score (Ext.standard cur Ext.Nan) = Ext.Finite s /\ s == 0.
Proof.
  unfold Ext.standard. cbn [Ext.lt].
  destruct (Py.ltb 50 cur); eexists; (split; [reflexivity |]);
    vm_compute; reflexivity.
Qed.

Lemma ext_ism_nan (v : Q) (prev : option Q) :
  exists info s,
    Ext.ism_calculate_score v (Some Ext.Nan) prev = Some info /\
    Ext.score info = Ext.Finite s /\
    (s == 0 \/ s == 10 \/ s == -10).
Proof.
  unfold Ext.ism_calculate_score, Ext.ism_transition, Ext.standard.
  destruct prev as [q |].
  - destruct (Py.ltb 50 q && Py.leb v 50).
    + eexists _, _. split; [reflexivity |]. split; [reflexivity |].
      right; left. vm_compute. reflexivity.
    + destruct (Py.ltb q 50 && Py.leb 50 v).
      * eexists _, _. split; [reflexivity |]. split; [reflexivity |].
        right; right. vm_compute. reflexivity.
      * destruct (Py.ltb 50 v);
          (eexists _, _; split; [reflexivity |]; split; [reflexivity |];
           left; vm_compute; reflexivity).
  - destruct (Py.ltb 50 v);
      (eexists _, _; split; [reflexivity |]; split; [reflexivity |];
       left; vm_compute; reflexivity).
Qed.

Lemma ext_nmi_nan (v : Q) (prev : option Q) :
  exists info s,
    Ext.nmi_calculate_score v (Some Ext.Nan) prev = Some info /\
    Ext.score info = Ext.Finite s /\
    (s == 0 \/ s == 10 \/ s == -10).
Proof.
  unfold Ext.nmi_calculate_score, Ext.nmi_transition, Ext.standard.
  destruct prev as [q |].
  - destruct (Py.ltb 50 q && Py.leb v 50).
    + eexists _, _. split; [reflexivity |]. split; [reflexivity |].
      right; right. vm_compute. reflexivity.
    + destruct (Py.ltb q 50 && Py.leb 50 v).
      * eexists _, _. split; [reflexivity |]. split; [reflexivity |].
        right; left. vm_compute. reflexivity.
      * destruct (Py.ltb 50 v);
          (eexists _, _; split; [reflexivity |]; split; [reflexivity |];
           left; vm_compute; reflexivity).
  - destruct (Py.ltb 50 v);
      (eexists _, _; split; [reflexivity |]; split; [reflexivity |];
       left; vm_compute; reflexivity).
Qed.

Lemma ism_none_iff (p : Diffusion.DataPoint) (prev : option Q) :
  fst (ISM.calculate_score p prev) = None <-> Diffusion.change p = None.
Proof.
  unfold ISM.calculate_score.
  destruct (Diffusion.change p); cbn [fst]; split; intros H;
    first [reflexivity | discriminate H].
Qed.

Lemma nmi_none_iff (p : Diffusion.DataPoint) (prev : option Q) :
  fst (NMI.calculate_score p prev) = None <-> Diffusion.change p = None.
Proof.
  unfold NMI.calculate_score.
  destruct (Diffusion.change p); cbn [fst]; split; intros H;
    first [reflexivity | discriminate H].
Qed.

(** C8, as the code has it.  An ISM or NMI point built without a change
    gets no score: [calculate_score] returns [None] and leaves the point as
    it was, and the exported record has no score, bias, phase or scenario;
    for any point the method returns [None] exactly when the change is
    absent.  A change that is present is always scored, whatever float it
    is, and this includes a change that is NaN: all its comparisons fail
    and the stored score is 0, 10 or -10.  The UMCSI scorer returns a
    score on every finite reading; on a NaN reading its [round] raises
    [ValueError] and on an infinite one [OverflowError]. *)
Theorem absent_change_and_non_numbers (d : Py.datetime) (v : Q)
    (prev : option Q) (p : Diffusion.DataPoint) (q : Q) (negative : bool) :
  let fresh := Diffusion.init d v None in
  ISM.calculate_score fresh prev = (None, fresh) /\
  NMI.calculate_score fresh prev = (None, fresh) /\
  Diffusion.d_score (Diffusion.to_dict fresh) = None /\
  Diffusion.d_bias (Diffusion.to_dict fresh) = None /\
  Diffusion.d_phase (Diffusion.to_dict fresh) = None /\
  Diffusion.d_scenario (Diffusion.to_dict fresh) = None /\
  (fst (ISM.calculate_score p prev) = None <-> Diffusion.change p = None) /\
  (fst (NMI.calculate_score p prev) = None <-> Diffusion.change p = None) /\
  Ext.ism_calculate_score (Diffusion.value p)
      (Ext.Finite <$> Diffusion.change p) prev =
    Ext.of_info <$> fst (ISM.calculate_score p prev) /\
  Ext.nmi_calculate_score (Diffusion.value p)
      (Ext.Finite <$> Diffusion.change p) prev =
    Ext.of_info <$> fst (NMI.calculate_score p prev) /\
  (forall c, is_Some (Ext.ism_calculate_score v (Some c) prev)) /\
  (forall c, is_Some (Ext.nmi_calculate_score v (Some c) prev)) /\
  (exists info s,
      Ext.ism_calculate_score v (Some Ext.Nan) prev = Some info /\
      Ext.score info = Ext.Finite s /\ (s == 0 \/ s == 10 \/ s == -10)) /\
  (exists info s,
      Ext.nmi_calculate_score v (Some Ext.Nan) prev = Some info /\
      Ext.score info = Ext.Finite s /\ (s == 0 \/ s == 10 \/ s == -10)) /\
  Ext.umcsi_score (Ext.Finite q) = Ext.Return (UMCSI.score_of q) /\
  Ext.umcsi_score Ext.Nan = Ext.Raise Ext.ValueError /\
  Ext.umcsi_score (Ext.Inf negative) = Ext.Raise Ext.OverflowError.
Proof.
  intros fresh.
  split; [reflexivity |]. split; [reflexivity |].
  split; [reflexivity |]. split; [reflexivity |].
  split; [reflexivity |]. split; [reflexivity |].
  split; [apply ism_none_iff |]. split; [apply nmi_none_iff |].
  split; [apply ext_ism_finite |]. split; [apply ext_nmi_finite |].
  split; [intros c; eexists; reflexivity |].
  split; [intros c; eexists; reflexivity |].
  split; [apply ext_ism_nan |]. split; [apply ext_nmi_nan |].
  split; [reflexivity |]. split; reflexivity.
Qed.

(** C8, as stated, fails in its last clause: the UMCSI scorer raises on a
    reading that is NaN or infinite.  And a change that is NaN, as a sheet
    with an empty cell gives it, is not treated as absent: above 50 the
    ISM scorer stores the score 0 for it, and on a trough 10. *)
Lemma umcsi_raises_on_non_numbers :
  Ext.umcsi_score Ext.Nan = Ext.Raise Ext.ValueError /\
  Ext.umcsi_score (Ext.Inf false) = Ext.Raise Ext.OverflowError /\
  Ext.umcsi_score (Ext.Inf true) = Ext.Raise Ext.OverflowError /\
  (exists info s,
      Ext.ism_calculate_score 51 (Some Ext.Nan) (Some 52) = Some info /\
      Ext.scenario info = "Above 50 and slowing"%string /\
      Ext.score info = Ext.Finite s /\ s == 0) /\
  (exists info s,
      Ext.ism_calculate_score 49 (Some Ext.Nan) (Some 51) = Some info /\
      Ext.scenario info = "ISM troughs below 50"%string /\
      Ext.score info = Ext.Finite s /\ s == 10).
Proof.
  split; [reflexivity |]. split; [reflexivity |]. split; [reflexivity |].
  split; eexists _, _; (split; [vm_compute; reflexivity |]);
    (split; [reflexivity |]); (split; [reflexivity |]);
    vm_compute; reflexivity.
Qed.

End NonNumbers.

(** ** The CPI table near its thresholds *)

Section CpiBasins.

Local Open Scope Q_scope.

(** Two entries of the CPI table whose thresholds are less than 0.1 apart
    are the same entry. *)
Lemma cpi_keys_apart (k k' : Q) (s s' : Z) :
  In (k, s) CPIUCSL.score_table -> In (k', s') CPIUCSL.score_table ->
  Qabs (k - k') < 0.1 -> s = s'.
Proof.
  intros H1 H2 Hd.
  assert (forallb (fun e : Q * Z =>
            forallb (fun e' : Q * Z =>
              orb (Qle_bool 0.1 (Qabs (fst e - fst e')))
                  (Z.eqb (snd e) (snd e')))
              CPIUCSL.score_table)
            CPIUCSL.score_table = true) as Hall
    by (vm_compute; reflexivity).
  rewrite List.forallb_forall in Hall. specialize (Hall _ H1).
  rewrite List.forallb_forall in Hall. specialize (Hall _ H2).
  cbn [fst snd] in Hall. apply orb_true_iff in Hall.
  destruct Hall as [Hfar | Heq].
  - apply Qle_bool_iff in Hfar. exfalso.
    apply (Qlt_not_le _ _ Hd). exact Hfar.
  - apply Z.eqb_eq. exact Heq.
Qed.

(** Half way between two thresholds the doubles decide: the average 0.7
    is at equal exact distance from 0.8 and 0.6 and the exact lookup keeps
    the first, 0.8 (score 8); on doubles [0.8 - 0.7] is the larger
    difference and the code returns the score 6 of 0.6.  Far below the
    table all rounded differences are equal and the first entry wins.
    Within 0.04 of a threshold both lookups agree. *)
Lemma cpi_half_way_depends_on_the_double :
  CPIUCSL.closest_score CPIUCSL.score_table 0.7 = Some 8%Z /\
  F64.list_score CPIUCSL.score_table (F64.fl 0.7) = Some 6%Z /\
  CPIUCSL.closest_score CPIUCSL.score_table 0.35 = Some 4%Z /\
  F64.list_score CPIUCSL.score_table (F64.fl 0.35) = Some 0%Z /\
  F64.list_score CPIUCSL.score_table (inject_Z (- 10 ^ 20)) = Some 3%Z /\
  CPIUCSL.closest_score CPIUCSL.score_table 0.83 = Some 8%Z /\
  F64.list_score CPIUCSL.score_table (F64.fl 0.83) = Some 8%Z.
Proof.
  split; [vm_compute; reflexivity |]. split; [vm_compute; reflexivity |].
  split; [vm_compute; reflexivity |]. split; [vm_compute; reflexivity |].
  split; [vm_compute; reflexivity |]. split; vm_compute; reflexivity.
Qed.

(** X12.  Beyond the zero guard ([|v| >= 0.01]) an average within 0.04 of a
    threshold of the CPI table gets the score listed with that threshold,
    and the score is stored; an average of 1.4 or more scores 3, and an
    average between -10^12 and -0.7 scores 10. *)
Theorem cpi_scores_near_thresholds (p : CPIUCSL.CPIDataPoint) (v : Q) :
  0.01 <= Qabs v ->
  (forall k s,
      In (k, s) CPIUCSL.score_table -> Qabs (v - k) <= 0.04 ->
      CPIUCSL.calculate_score p v =
        Some (s, CPIUCSL.mkPoint (CPIUCSL.date p) (CPIUCSL.cpi_change p)
                                 (Some s))) /\
  (1.4 <= v -> fst <$> CPIUCSL.calculate_score p v = Some 3%Z) /\
  (-1000000000000 <= v -> v <= -0.7 ->
   fst <$> CPIUCSL.calculate_score p v = Some 10%Z).
Proof.
  intros Hv. rewrite (cpi_beyond_guard p v Hv).
  destruct (list_lookup_nearest CPIUCSL.score_table v) as (k' & s' & Hn & ->);
    [discriminate |].
  pose proof (nearest_entry_in _ _ _ _ _ Hn) as Hin.
  split; [| split].
  - intros k s Hks Hnear.
    assert (s' = s) as ->; [| reflexivity].
    apply (cpi_keys_apart k' k s' s Hin Hks).
    pose proof (nearest_entry_le _ _ _ _ _ _ _ Hn Hks) as Hd. cbv beta in Hd.
    apply Qabs_Qle_condition in Hnear. destruct Hnear as [Hlo Hhi].
    assert (Qabs (k - v) <= 0.04) as Hk
      by (apply Qabs_Qle_condition; split; lra).
    assert (Qabs (k' - v) <= 0.04) as Hk'
      by (eapply Qle_trans; [exact Hd | exact Hk]).
    apply Qabs_Qle_condition in Hk'. destruct Hk' as [Hlo' Hhi'].
    apply Qabs_Qlt_condition. split; lra.
  - intros Hb. cbn. f_equal.
    pose proof cpi_table_top as Hall. rewrite Forall_forall in Hall.
    destruct (Hall (k', s')) as [Hle Hfun]; [apply list_elem_of_In, Hin |].
    cbn in Hle, Hfun. apply Hfun.
    assert (In (1.4, 3%Z) CPIUCSL.score_table) as Htop by (left; reflexivity).
    pose proof (nearest_entry_le _ _ _ _ _ _ _ Hn Htop) as Hd. cbv beta in Hd.
    rewrite (Qabs_below k'), (Qabs_below 1.4) in Hd by lra. lra.
  - intros _ Hb. cbn. f_equal.
    pose proof cpi_table_bottom as Hall. rewrite Forall_forall in Hall.
    destruct (Hall (k', s')) as [Hle Hfun]; [apply list_elem_of_In, Hin |].
    cbn in Hle, Hfun. apply Hfun.
    assert (In (-0.7, 10%Z) CPIUCSL.score_table) as Hbot
      by (do 14 right; left; reflexivity).
    pose proof (nearest_entry_le _ _ _ _ _ _ _ Hn Hbot) as Hd. cbv beta in Hd.
    rewrite (Qabs_above k'), (Qabs_above (-0.7)) in Hd by lra. lra.
Qed.

Lemma cpi_scores_near_thresholds_witness :
  0.01 <= Qabs 0.83 /\
  In (0.8, 8%Z) CPIUCSL.score_table /\
  Qabs (0.83 - 0.8) <= 0.04 /\
  CPIUCSL.calculate_score (CPIUCSL.init (Py.Datetime 2023 1 1) 0.2) 0.83 =
    Some (8%Z, CPIUCSL.mkPoint (Py.Datetime 2023 1 1) 0.2 (Some 8%Z)).
Proof.
  assert (0.01 <= Qabs 0.83) as Hv by (vm_compute; discriminate).
  assert (In (0.8, 8%Z) CPIUCSL.score_table) as Hin
    by (do 3 right; left; reflexivity).
  assert (Qabs (0.83 - 0.8) <= 0.04) as Hnear by (vm_compute; discriminate).
  split; [exact Hv |]. split; [exact Hin |]. split; [exact Hnear |].
  destruct (cpi_scores_near_thresholds
              (CPIUCSL.init (Py.Datetime 2023 1 1) 0.2) 0.83 Hv) as (H & _).
  exact (H 0.8 8%Z Hin Hnear).
Defined.

End CpiBasins.

(** ** The exported M2 average *)

Section TrendExport.

Local Open Scope Q_scope.

(** Rounding to two decimals moves a value by at most half a hundredth. *)
Lemma round2_close (x : Q) : Qabs (Py.round2 x - x) <= 1 # 200.
Proof.
  unfold Py.round2, Py.round_to. change (inject_Z 100) with 100.
  pose proof (round_nearest (x * 100)) as H.
  apply Qabs_Qle_condition in H. destruct H as [H1 H2].
  assert (100 * (inject_Z (Py.round (x * 100)) / 100) ==
          inject_Z (Py.round (x * 100))) as E by field.
  remember (inject_Z (Py.round (x * 100)) / 100) as y eqn:Ey. clear Ey.
  remember (inject_Z (Py.round (x * 100))) as r eqn:Er. clear Er.
  apply Qabs_Qle_condition. split; lra.
Qed.

(** [round(x, 2) if x else None] on a stored value. *)
Lemma round2_if_truthy_cases (avg : Q) :
  (avg == 0 -> M2.round2_if_truthy (Some avg) = None) /\
  (~ avg == 0 ->
   exists r, M2.round2_if_truthy (Some avg) = Some r /\
             Qabs (r - avg) <= 0.01).
Proof.
  unfold M2.round2_if_truthy. split; intros Hz.
  - apply Qeq_bool_iff in Hz. rewrite Hz. reflexivity.
  - destruct (Qeq_bool avg 0) eqn:E.
    + exfalso. apply Hz. apply Qeq_bool_iff. exact E.
    + exists (Py.round2 avg). split; [reflexivity |].
      eapply Qle_trans; [apply round2_close |].
      unfold Qle; simpl; lia.
Qed.

(** X17.  When an M2 series holds at least two points, the point appended
    next stores a three-month average, and [to_dict] exports that average
    by its truth value: a stored average equal to zero is exported as
    absent, like a missing one; any other stored average is exported as a
    number within 0.01 of it (its rounding to two decimals).
    [percent_change] is exported as absent. *)
Theorem m2_zero_average_exported_as_absent
    (pre : list M2.MonetaryDataPoint) (a b : M2.MonetaryDataPoint)
    (d : Py.datetime) (v : Q) :
  exists p avg,
    M2.data_points (M2.add_data_point (M2.mkData (pre ++ [a; b])) d v) =
      (pre ++ [a; b]) ++ [p] /\
    M2.three_month_avg p = Some avg /\
    (avg == 0 -> M2.d_3_month_avg (M2.to_dict p) = None) /\
    (~ avg == 0 ->
     exists r, M2.d_3_month_avg (M2.to_dict p) = Some r /\
               Qabs (r - avg) <= 0.01) /\
    M2.d_percent_change (M2.to_dict p) = None.
Proof.
  eexists. eexists.
  split; [apply m2_add_unfold |].
  cbn [M2.data_points].
  rewrite metrics_long by (rewrite length_app; cbn; lia).
  rewrite slice_last_two. cbn [M2.three_month_avg].
  split; [reflexivity |].
  unfold M2.to_dict.
  cbn [M2.d_3_month_avg M2.d_percent_change M2.three_month_avg
       M2.percent_change].
  pose proof (round2_if_truthy_cases
                (Py.sum ((M2.value <$> [a; b]) ++ [v]) / 3)) as [Hz Hnz].
  split; [exact Hz |]. split; [exact Hnz |]. reflexivity.
Qed.

Lemma m2_zero_average_exported_as_absent_witness :
  exists p,
    M2.data_points
      (M2.add_data_point
         (M2.mkData ([] ++ [M2.init (Py.Datetime 2023 1 1) 0.5;
                            M2.init (Py.Datetime 2023 2 1) (-0.25)]))
         (Py.Datetime 2023 3 1) (-0.25)) =
    ([] ++ [M2.init (Py.Datetime 2023 1 1) 0.5;
            M2.init (Py.Datetime 2023 2 1) (-0.25)]) ++ [p] /\
    is_Some (M2.three_month_avg p) /\
    M2.d_3_month_avg (M2.to_dict p) = None.
Proof.
  destruct (m2_zero_average_exported_as_absent []
              (M2.init (Py.Datetime 2023 1 1) 0.5)
              (M2.init (Py.Datetime 2023 2 1) (-0.25))
              (Py.Datetime 2023 3 1) (-0.25))
    as (p & avg & Hp & Havg & Hzero & _).
  exists p. split; [exact Hp |]. split; [rewrite Havg; eexists; reflexivity |].
  apply Hzero.
  rewrite m2_add_unfold in Hp. cbn [M2.data_points] in Hp.
  apply app_inv_head in Hp. injection Hp as <-.
  injection Havg as <-. vm_compute. reflexivity.
Defined.

End TrendExport.
